(** * PaymentRequestFHE: a shallow embedding of the contract and its protocol properties

    The development follows [contracts/Payment_Request_Fhe.sol].  Storage is a
    record, every external function is a computation in a small state-and-revert
    monad, and a transaction either commits the final storage or rolls back to
    the storage it started from.  The monad keeps the storage as it is at the
    point of a revert, so that "no write precedes a check" is a statement about
    the function bodies and not only about the roll-back. *)

From Stdlib Require Import ZArith List Bool Lia.
From stdpp Require Import base gmap.
Import ListNotations.

Open Scope Z_scope.

(** ** Solidity values *)

(** [uint256], [address], [bytes32] and [euint32] (a user-defined value type
    over [bytes32]; [toBytes32] unwraps it) are integers.  Arithmetic on
    [uint256] is checked (pragma ^0.8.24, no [unchecked] block): a result above
    [MAX_UINT256] reverts with [Panic(0x11)]. *)
Definition MAX_UINT256 : Z := 2 ^ 256 - 1.

(** A [uint256] received as an argument: an integer together with the evidence
    that it lies in the range of the type.  It types the one argument the
    contract stores and later adds to, the cooldown; batch ids, request ids,
    addresses and handles are only compared or used as keys and stay plain
    integers. *)
Definition isUint256 (v : Z) : bool := (0 <=? v) && (v <=? MAX_UINT256).

Record uint256 : Set := mkUint256 {
  uint_val : Z;
  uint_ok : isUint256 uint_val = true
}.

Definition toBytes32 (handle : Z) : Z := handle.

Inductive Error : Set :=
| NotOwner
| NotProvider
| Paused
| CooldownActive
| InvalidBatch
| InvalidState
| ReplayDetected
| DecryptionFailed
| AlreadyInitialized
| NotInitialized
| Panic (code : Z)
| SignaturesRejected
| AbiDecodeError.

Inductive Event : Set :=
| ProviderAdded (provider : Z)
| ProviderRemoved (provider : Z)
| CooldownSet (seconds : Z)
| BatchOpened (batch : Z)
| BatchClosed (batch : Z)
| PaymentRequestSubmitted (batch sender encryptedNote : Z)
| DecryptionRequested (requestId batch : Z)
| DecryptionCompleted (requestId batch note : Z)
| DecryptionFulfilled (requestId : Z)
| EmitPaused
| EmitUnpaused.

Record DecryptionContext : Set := mkContext {
  batchId : Z;
  stateHash : Z;
  processed : bool
}.

(** The value a mapping returns for a key that was never written. *)
Definition noContext : DecryptionContext :=
  {| batchId := 0; stateHash := 0; processed := false |}.

(** ** Storage *)

(** The nested mappings [encryptedNotes] and [hasSubmitted] are keyed by the
    pair (batch id, provider address).  [events] is the log of the events
    emitted so far, oldest first. *)
Record State : Type := mkState {
  owner : Z;
  providers : gmap Z bool;
  paused : bool;
  cooldownSeconds : Z;
  lastSubmissionTime : gmap Z Z;
  lastDecryptionRequestTime : gmap Z Z;
  currentBatchId : Z;
  batchOpen : bool;
  encryptedNotes : gmap (Z * Z) Z;
  hasSubmitted : gmap (Z * Z) bool;
  decryptionContexts : gmap Z DecryptionContext;
  events : list Event
}.

(** Storage before the constructor runs: every slot is zero. *)
Definition zeroState : State :=
  {| owner := 0; providers := ∅; paused := false; cooldownSeconds := 0;
     lastSubmissionTime := ∅; lastDecryptionRequestTime := ∅;
     currentBatchId := 0; batchOpen := false;
     encryptedNotes := ∅; hasSubmitted := ∅; decryptionContexts := ∅;
     events := [] |}.

(** Mapping reads, with Solidity's default for an absent key. *)
Definition isProvider (s : State) (a : Z) : bool := default false (providers s !! a).
Definition lastSubmission (s : State) (a : Z) : Z := default 0 (lastSubmissionTime s !! a).
Definition lastDecryptionRequest (s : State) (a : Z) : Z :=
  default 0 (lastDecryptionRequestTime s !! a).
Definition noteOf (s : State) (b a : Z) : Z := default 0 (encryptedNotes s !! (b, a)).
Definition submitted (s : State) (b a : Z) : bool := default false (hasSubmitted s !! (b, a)).
Definition contextOf (s : State) (requestId : Z) : DecryptionContext :=
  default noContext (decryptionContexts s !! requestId).

(** Storage writes. *)
Definition set_owner (v : Z) (s : State) : State :=
  mkState v (providers s) (paused s) (cooldownSeconds s) (lastSubmissionTime s)
    (lastDecryptionRequestTime s) (currentBatchId s) (batchOpen s) (encryptedNotes s)
    (hasSubmitted s) (decryptionContexts s) (events s).
Definition set_provider (a : Z) (v : bool) (s : State) : State :=
  mkState (owner s) (<[a := v]> (providers s)) (paused s) (cooldownSeconds s)
    (lastSubmissionTime s) (lastDecryptionRequestTime s) (currentBatchId s) (batchOpen s)
    (encryptedNotes s) (hasSubmitted s) (decryptionContexts s) (events s).
Definition set_paused (v : bool) (s : State) : State :=
  mkState (owner s) (providers s) v (cooldownSeconds s) (lastSubmissionTime s)
    (lastDecryptionRequestTime s) (currentBatchId s) (batchOpen s) (encryptedNotes s)
    (hasSubmitted s) (decryptionContexts s) (events s).
Definition set_cooldownSeconds (v : Z) (s : State) : State :=
  mkState (owner s) (providers s) (paused s) v (lastSubmissionTime s)
    (lastDecryptionRequestTime s) (currentBatchId s) (batchOpen s) (encryptedNotes s)
    (hasSubmitted s) (decryptionContexts s) (events s).
Definition set_lastSubmissionTime (a v : Z) (s : State) : State :=
  mkState (owner s) (providers s) (paused s) (cooldownSeconds s)
    (<[a := v]> (lastSubmissionTime s)) (lastDecryptionRequestTime s) (currentBatchId s)
    (batchOpen s) (encryptedNotes s) (hasSubmitted s) (decryptionContexts s) (events s).
Definition set_lastDecryptionRequestTime (a v : Z) (s : State) : State :=
  mkState (owner s) (providers s) (paused s) (cooldownSeconds s) (lastSubmissionTime s)
    (<[a := v]> (lastDecryptionRequestTime s)) (currentBatchId s) (batchOpen s)
    (encryptedNotes s) (hasSubmitted s) (decryptionContexts s) (events s).
Definition set_currentBatchId (v : Z) (s : State) : State :=
  mkState (owner s) (providers s) (paused s) (cooldownSeconds s) (lastSubmissionTime s)
    (lastDecryptionRequestTime s) v (batchOpen s) (encryptedNotes s) (hasSubmitted s)
    (decryptionContexts s) (events s).
Definition set_batchOpen (v : bool) (s : State) : State :=
  mkState (owner s) (providers s) (paused s) (cooldownSeconds s) (lastSubmissionTime s)
    (lastDecryptionRequestTime s) (currentBatchId s) v (encryptedNotes s) (hasSubmitted s)
    (decryptionContexts s) (events s).
Definition set_encryptedNote (b a v : Z) (s : State) : State :=
  mkState (owner s) (providers s) (paused s) (cooldownSeconds s) (lastSubmissionTime s)
    (lastDecryptionRequestTime s) (currentBatchId s) (batchOpen s)
    (<[(b, a) := v]> (encryptedNotes s)) (hasSubmitted s) (decryptionContexts s) (events s).
Definition set_hasSubmitted (b a : Z) (v : bool) (s : State) : State :=
  mkState (owner s) (providers s) (paused s) (cooldownSeconds s) (lastSubmissionTime s)
    (lastDecryptionRequestTime s) (currentBatchId s) (batchOpen s) (encryptedNotes s)
    (<[(b, a) := v]> (hasSubmitted s)) (decryptionContexts s) (events s).
Definition set_context (requestId : Z) (v : DecryptionContext) (s : State) : State :=
  mkState (owner s) (providers s) (paused s) (cooldownSeconds s) (lastSubmissionTime s)
    (lastDecryptionRequestTime s) (currentBatchId s) (batchOpen s) (encryptedNotes s)
    (hasSubmitted s) (<[requestId := v]> (decryptionContexts s)) (events s).
Definition log_event (e : Event) (s : State) : State :=
  mkState (owner s) (providers s) (paused s) (cooldownSeconds s) (lastSubmissionTime s)
    (lastDecryptionRequestTime s) (currentBatchId s) (batchOpen s) (encryptedNotes s)
    (hasSubmitted s) (decryptionContexts s) (events s ++ [e]).

(** ** The state-and-revert monad *)

(** [Revert e s] carries the storage as it was when the revert was raised. *)
Inductive Res (A : Type) : Type :=
| Ok (a : A) (s : State)
| Revert (e : Error) (s : State).
Arguments Ok {A} a s.
Arguments Revert {A} e s.

Definition M (A : Type) : Type := State -> Res A.

Definition ret {A} (a : A) : M A := fun s => Ok a s.
Definition bind {A B} (m : M A) (k : A -> M B) : M B :=
  fun s => match m s with
           | Ok a s' => k a s'
           | Revert e s' => Revert e s'
           end.
Definition revert {A} (e : Error) : M A := fun s => Revert e s.
Definition gets {A} (f : State -> A) : M A := fun s => Ok (f s) s.
Definition modify (f : State -> State) : M unit := fun s => Ok tt (f s).
Definition emit (e : Event) : M unit := modify (log_event e).

(** [if (cond) revert E();] *)
Definition revert_if (cond : bool) (e : Error) : M unit :=
  if cond then revert e else ret tt.

Notation "x <- c1 ;; c2" := (bind c1 (fun x => c2))
  (at level 100, c1 at next level, right associativity).
Notation "c1 ;; c2" := (bind c1 (fun _ => c2))
  (at level 100, right associativity).

(** Checked [uint256] addition. *)
Definition checked_add (a b : Z) : M Z :=
  if a + b <=? MAX_UINT256 then ret (a + b) else revert (Panic 17).

(** ** The environment of a call *)

(** [msg.sender], [block.timestamp], and the request id that
    [FHE.requestDecryption] hands back in this transaction (the oracle chooses
    it; the contract only stores it). *)
Record Ctx : Set := mkCtx {
  msg_sender : Z;
  block_timestamp : Z;
  oracle_requestId : Z
}.

(** What the contract takes from outside its own source: its address, the
    [keccak256] builtin over the ABI-encoded words, and the verdict of the
    signature check of the FHE library ([checkSignatures] below turns the
    verdict into the library call). *)
Record Host : Type := mkHost {
  this_address : Z;
  keccak256 : list Z -> Z;
  FHE_checkSignatures : Z -> list Byte.byte -> list Byte.byte -> bool
}.

(** [abi.encode(bytes32[] cts, address a)] as 32-byte words: the head holds the
    offset of the array (two head words, 64 bytes) and the address, the tail
    holds the length and the elements. *)
Definition abi_encode (cts : list Z) (a : Z) : list Z :=
  [64; a; Z.of_nat (length cts)] ++ cts.

(** A byte string as a big-endian number. *)
Definition bigEndian (bs : list Byte.byte) : Z :=
  fold_left (fun acc b => acc * 256 + Z.of_N (Byte.to_N b)) bs 0.

(** [abi.decode(cleartexts, (uint256))]: the decoder fails on fewer than 32
    bytes and otherwise reads the first 32-byte word as a big-endian number,
    whatever follows it. *)
Definition abi_decode_uint256 (bs : list Byte.byte) : option Z :=
  if (length bs <? 32)%nat then None else Some (bigEndian (firstn 32 bs)).

(** ** The contract *)

Definition onlyOwner (c : Ctx) : M unit :=
  o <- gets owner ;;
  revert_if (negb (msg_sender c =? o)) NotOwner.

Definition onlyProvider (c : Ctx) : M unit :=
  p <- gets (fun s => isProvider s (msg_sender c)) ;;
  revert_if (negb p) NotProvider.

Definition whenNotPaused : M unit :=
  p <- gets paused ;;
  revert_if p Paused.

Definition constructor (c : Ctx) : M unit :=
  modify (set_owner (msg_sender c)) ;;
  modify (set_provider (msg_sender c) true) ;;
  emit (ProviderAdded (msg_sender c)) ;;
  modify (set_cooldownSeconds 60) ;;
  modify (set_currentBatchId 0) ;;
  modify (set_batchOpen false).

Definition addProvider (c : Ctx) (_provider : Z) : M unit :=
  onlyOwner c ;;
  modify (set_provider _provider true) ;;
  emit (ProviderAdded _provider).

Definition removeProvider (c : Ctx) (_provider : Z) : M unit :=
  onlyOwner c ;;
  modify (set_provider _provider false) ;;
  emit (ProviderRemoved _provider).

Definition setCooldown (c : Ctx) (_cooldownSeconds : uint256) : M unit :=
  onlyOwner c ;;
  modify (set_cooldownSeconds (uint_val _cooldownSeconds)) ;;
  emit (CooldownSet (uint_val _cooldownSeconds)).

Definition setPaused (c : Ctx) (_paused : bool) : M unit :=
  onlyOwner c ;;
  modify (set_paused _paused) ;;
  if _paused then emit EmitPaused else emit EmitUnpaused.

Definition openBatch (c : Ctx) : M unit :=
  onlyOwner c ;;
  whenNotPaused ;;
  isOpen <- gets batchOpen ;;
  (if isOpen
   then (cur <- gets currentBatchId ;;
         next <- checked_add cur 1 ;;
         modify (set_currentBatchId next))
   else ret tt) ;;
  modify (set_batchOpen true) ;;
  cur <- gets currentBatchId ;;
  emit (BatchOpened cur).

Definition closeBatch (c : Ctx) : M unit :=
  onlyOwner c ;;
  whenNotPaused ;;
  isOpen <- gets batchOpen ;;
  revert_if (negb isOpen) InvalidBatch ;;
  modify (set_batchOpen false) ;;
  cur <- gets currentBatchId ;;
  emit (BatchClosed cur).

Definition submitPaymentRequest (c : Ctx) (_batchId _encryptedNote : Z) : M unit :=
  onlyProvider c ;;
  whenNotPaused ;;
  last <- gets (fun s => lastSubmission s (msg_sender c)) ;;
  cd <- gets cooldownSeconds ;;
  ready <- checked_add last cd ;;
  revert_if (block_timestamp c <? ready) CooldownActive ;;
  cur <- gets currentBatchId ;;
  revert_if (negb (_batchId =? cur)) InvalidBatch ;;
  isOpen <- gets batchOpen ;;
  revert_if (negb isOpen) InvalidBatch ;;
  done <- gets (fun s => submitted s _batchId (msg_sender c)) ;;
  revert_if done AlreadyInitialized ;;
  modify (set_lastSubmissionTime (msg_sender c) (block_timestamp c)) ;;
  modify (set_encryptedNote _batchId (msg_sender c) _encryptedNote) ;;
  modify (set_hasSubmitted _batchId (msg_sender c) true) ;;
  emit (PaymentRequestSubmitted _batchId (msg_sender c) (toBytes32 _encryptedNote)).

Section WithHost.
Variable h : Host.

Definition _hashCiphertexts (cts : list Z) : Z :=
  keccak256 h (abi_encode cts (this_address h)).

Definition _isNoteInitialized (_batchId _provider : Z) : M bool :=
  gets (fun s => submitted s _batchId _provider).

Definition requestNoteDecryption (c : Ctx) (_batchId _provider : Z) : M unit :=
  whenNotPaused ;;
  last <- gets (fun s => lastDecryptionRequest s (msg_sender c)) ;;
  cd <- gets cooldownSeconds ;;
  ready <- checked_add last cd ;;
  revert_if (block_timestamp c <? ready) CooldownActive ;;
  init <- _isNoteInitialized _batchId _provider ;;
  revert_if (negb init) NotInitialized ;;
  note <- gets (fun s => noteOf s _batchId _provider) ;;
  let cts := [toBytes32 note] in
  let hash := _hashCiphertexts cts in
  let requestId := oracle_requestId c in
  modify (set_context requestId
            {| batchId := _batchId; stateHash := hash; processed := false |}) ;;
  modify (set_lastDecryptionRequestTime (msg_sender c) (block_timestamp c)) ;;
  emit (DecryptionRequested requestId _batchId).

(** [FHE.checkSignatures(requestId, cleartexts, proof)]: the library reverts
    when the signatures do not verify, and otherwise logs
    [DecryptionFulfilled(requestId)] from the calling contract. *)
Definition checkSignatures (requestId : Z) (cleartexts proof : list Byte.byte) : M unit :=
  revert_if (negb (FHE_checkSignatures h requestId cleartexts proof)) SignaturesRejected ;;
  emit (DecryptionFulfilled requestId).

Definition myCallback (c : Ctx) (requestId : Z) (cleartexts proof : list Byte.byte)
  : M unit :=
  isProcessed <- gets (fun s => processed (contextOf s requestId)) ;;
  revert_if isProcessed ReplayDetected ;;
  revert_if (negb (Z.of_nat (length cleartexts) =? 32)) DecryptionFailed ;;
  slot <- gets (fun s => noteOf s (batchId (contextOf s requestId)) (msg_sender c)) ;;
  let cts := [toBytes32 slot] in
  let currentHash := _hashCiphertexts cts in
  stored <- gets (fun s => stateHash (contextOf s requestId)) ;;
  revert_if (negb (currentHash =? stored)) InvalidState ;;
  checkSignatures requestId cleartexts proof ;;
  note <- (match abi_decode_uint256 cleartexts with
           | Some n => ret n
           | None => revert AbiDecodeError
           end) ;;
  modify (fun s =>
    set_context requestId
      {| batchId := batchId (contextOf s requestId);
         stateHash := stateHash (contextOf s requestId);
         processed := true |} s) ;;
  b <- gets (fun s => batchId (contextOf s requestId)) ;;
  emit (DecryptionCompleted requestId b note).

(** *** Transactions *)

Inductive Call : Type :=
| AddProvider (_provider : Z)
| RemoveProvider (_provider : Z)
| SetCooldown (_cooldownSeconds : uint256)
| SetPaused (_paused : bool)
| OpenBatch
| CloseBatch
| SubmitPaymentRequest (_batchId _encryptedNote : Z)
| RequestNoteDecryption (_batchId _provider : Z)
| MyCallback (requestId : Z) (cleartexts proof : list Byte.byte).

Definition dispatch (call : Call) (c : Ctx) : M unit :=
  match call with
  | AddProvider p => addProvider c p
  | RemoveProvider p => removeProvider c p
  | SetCooldown v => setCooldown c v
  | SetPaused v => setPaused c v
  | OpenBatch => openBatch c
  | CloseBatch => closeBatch c
  | SubmitPaymentRequest b n => submitPaymentRequest c b n
  | RequestNoteDecryption b p => requestNoteDecryption c b p
  | MyCallback r ct pf => myCallback c r ct pf
  end.

(** A transaction commits the storage of a successful call and rolls a
    reverted call back to the storage it started from. *)
Definition transact (call : Call) (c : Ctx) (s : State) : State * option Error :=
  match dispatch call c s with
  | Ok _ s' => (s', None)
  | Revert e _ => (s, Some e)
  end.

Definition after (call : Call) (c : Ctx) (s : State) : State :=
  fst (transact call c s).

Definition outcome (call : Call) (c : Ctx) (s : State) : option Error :=
  snd (transact call c s).

(** A history of transactions, oldest first. *)
Fixpoint run (tr : list (Call * Ctx)) (s : State) : State :=
  match tr with
  | [] => s
  | (call, c) :: tr' => run tr' (after call c s)
  end.

End WithHost.

(** The storage right after deployment by [deployer]. *)
Definition deployed (deployer : Z) : State :=
  match constructor (mkCtx deployer 0 0) zeroState with
  | Ok _ s => s
  | Revert _ s => s
  end.

(** A host for evaluating the contract on concrete inputs: the hash is a
    polynomial of the words, and the signature check accepts every non-empty
    proof. *)
Definition demoHost : Host :=
  {| this_address := 4096;
     keccak256 := fun ws => 1 + fold_left (fun acc w => acc * 1000003 + w) ws 7;
     FHE_checkSignatures := fun _ _ pf => match pf with [] => false | _ => true end |}.

(** A concrete history: the deployer [p] opens batch 0 and submits the handle 7
    at time 100; address 20 requests its decryption at time 200 and the oracle
    assigns request id 1. *)
Definition historyOf (p : Z) : list (Call * Ctx) :=
  [ (OpenBatch, mkCtx p 50 0);
    (SubmitPaymentRequest 0 7, mkCtx p 100 0);
    (RequestNoteDecryption 0 p, mkCtx 20 200 1) ].

Definition afterOpen : State := run demoHost (firstn 1 (historyOf 10)) (deployed 10).
Definition afterSubmit : State := run demoHost (firstn 2 (historyOf 10)) (deployed 10).
Definition afterRequestOf (p : Z) : State := run demoHost (historyOf p) (deployed p).
Definition afterRequest : State := afterRequestOf 10.

Definition word32 : list Byte.byte := repeat Byte.x00 32.
Definition someProof : list Byte.byte := [Byte.x01].

(** The storage after the deployer relays the callback for request 1. *)
Definition afterCallback : State :=
  after demoHost (MyCallback 1 word32 someProof) (mkCtx 10 300 0) afterRequest.

(** An open batch whose id is the largest [uint256]. *)
Definition lastBatchOpen : State :=
  set_currentBatchId MAX_UINT256 (set_batchOpen true (deployed 10)).

(** Between the deployer's two accepted submissions: batch 1 is opened at
    time 150, and the deployer submits to it at time 160. *)
Definition midHistory : list (Call * Ctx) := [ (OpenBatch, mkCtx 10 150 0) ].

(** The storage after the owner pauses the contract at time 110, and after
    the owner sets the cooldown to the largest [uint256] instead. *)
Definition pausedAfterSubmit : State :=
  after demoHost (SetPaused true) (mkCtx 10 110 0) afterSubmit.
Definition maxCooldownAfterSubmit : State :=
  after demoHost (SetCooldown (mkUint256 MAX_UINT256 eq_refl)) (mkCtx 10 110 0) afterSubmit.

(** ** Classes of calls and reachable storage *)

(** The functions declared with the [onlyOwner] modifier, and those declared
    with [whenNotPaused]. *)
Definition hasOnlyOwner (call : Call) : bool :=
  match call with
  | AddProvider _ | RemoveProvider _ | SetCooldown _ | SetPaused _
  | OpenBatch | CloseBatch => true
  | SubmitPaymentRequest _ _ | RequestNoteDecryption _ _ | MyCallback _ _ _ => false
  end.

Definition hasWhenNotPaused (call : Call) : bool :=
  match call with
  | OpenBatch | CloseBatch | SubmitPaymentRequest _ _ | RequestNoteDecryption _ _ => true
  | AddProvider _ | RemoveProvider _ | SetCooldown _ | SetPaused _ | MyCallback _ _ _ => false
  end.

(** Storage that some history of transactions produces from a deployment. *)
Definition reachable (h : Host) (s : State) : Prop :=
  exists deployer tr, s = run h tr (deployed deployer).

(** No decryption request of the history is given the request id [rid] by the
    oracle. *)
Definition neverReissued (rid : Z) (tr : list (Call * Ctx)) : Prop :=
  Forall (fun x => match fst x with
                   | RequestNoteDecryption _ _ => oracle_requestId (snd x) <> rid
                   | _ => True
                   end) tr.

(** Notes are stored only together with the submitted flag, and only for
    batch ids between 0 and the current one. *)
Definition submissionsWellFormed (s : State) : Prop :=
  0 <= currentBatchId s
  /\ (forall b p, submitted s b p = true -> 0 <= b <= currentBatchId s)
  /\ (forall b p, is_Some (encryptedNotes s !! (b, p)) -> submitted s b p = true).

(** The storage fields other than the event log. *)
Definition sameStorage (s1 s2 : State) : Prop :=
  owner s1 = owner s2 /\ providers s1 = providers s2 /\ paused s1 = paused s2
  /\ cooldownSeconds s1 = cooldownSeconds s2
  /\ lastSubmissionTime s1 = lastSubmissionTime s2
  /\ lastDecryptionRequestTime s1 = lastDecryptionRequestTime s2
  /\ currentBatchId s1 = currentBatchId s2 /\ batchOpen s1 = batchOpen s2
  /\ encryptedNotes s1 = encryptedNotes s2 /\ hasSubmitted s1 = hasSubmitted s2
  /\ decryptionContexts s1 = decryptionContexts s2.


(** ** Proof support *)

Ltac unfold_sol :=
  unfold dispatch, addProvider, removeProvider, setCooldown, setPaused, openBatch,
    closeBatch, submitPaymentRequest, requestNoteDecryption, myCallback, constructor,
    onlyOwner, onlyProvider, whenNotPaused, _isNoteInitialized, checkSignatures,
    emit, revert_if, checked_add, bind, ret, revert, gets, modify in *.

Ltac sol_cases := intros; unfold_sol; repeat case_match; simplify_eq; try done.

(** Decoding the cleartext of a callback that passed the length check. *)
Lemma abi_decode_uint256_word bs :
  length bs = 32%nat -> abi_decode_uint256 bs = Some (bigEndian bs).
Proof.
  intros H. unfold abi_decode_uint256. rewrite H. simpl.
  by rewrite <- H, firstn_all.
Qed.

(** [myCallback] as a decision list. *)
Lemma myCallback_eq h c rid ct pf s :
  myCallback h c rid ct pf s =
  let ctx := contextOf s rid in
  if processed ctx then Revert ReplayDetected s
  else if negb (Z.of_nat (length ct) =? 32) then Revert DecryptionFailed s
  else if negb (_hashCiphertexts h [noteOf s (batchId ctx) (msg_sender c)] =? stateHash ctx)
       then Revert InvalidState s
  else if negb (FHE_checkSignatures h rid ct pf) then Revert SignaturesRejected s
  else Ok tt (log_event (DecryptionCompleted rid (batchId ctx) (bigEndian ct))
                (set_context rid {| batchId := batchId ctx; stateHash := stateHash ctx;
                                    processed := true |}
                   (log_event (DecryptionFulfilled rid) s))).
Proof.
  unfold_sol; unfold toBytes32; cbv zeta.
  destruct (processed (contextOf s rid)); [done |].
  destruct (negb (Z.of_nat (length ct) =? 32)) eqn:Hlen; [done |].
  destruct (negb (_hashCiphertexts h _ =? _)); [done |].
  destruct (negb (FHE_checkSignatures h rid ct pf)); [done |].
  apply negb_false_iff, Z.eqb_eq in Hlen.
  rewrite abi_decode_uint256_word by lia.
  unfold contextOf; simpl. rewrite lookup_insert_eq. done.
Qed.

(** Every revert is raised before the first storage write. *)
Lemma revert_before_write h call c s e s' :
  dispatch h call c s = Revert e s' -> s' = s.
Proof.
  destruct call; try (sol_cases; fail).
  simpl dispatch. rewrite myCallback_eq. cbv zeta.
  intros H. repeat case_match; simplify_eq; done.
Qed.

Lemma after_revert h call c s e :
  outcome h call c s = Some e -> after h call c s = s.
Proof.
  unfold outcome, after, transact.
  destruct (dispatch h call c s); simpl; [discriminate | done].
Qed.

(** [submitPaymentRequest] as a decision list, in the order of its modifiers
    and checks. *)
Lemma submitPaymentRequest_eq c b v s :
  submitPaymentRequest c b v s =
  let a := msg_sender c in
  if negb (isProvider s a) then Revert NotProvider s
  else if paused s then Revert Paused s
  else if negb (lastSubmission s a + cooldownSeconds s <=? MAX_UINT256)
       then Revert (Panic 17) s
  else if block_timestamp c <? lastSubmission s a + cooldownSeconds s
       then Revert CooldownActive s
  else if negb (b =? currentBatchId s) then Revert InvalidBatch s
  else if negb (batchOpen s) then Revert InvalidBatch s
  else if submitted s b a then Revert AlreadyInitialized s
  else Ok tt (log_event (PaymentRequestSubmitted b a v)
                (set_hasSubmitted b a true
                   (set_encryptedNote b a v
                      (set_lastSubmissionTime a (block_timestamp c) s)))).
Proof.
  unfold_sol; unfold toBytes32; cbv zeta.
  destruct (negb (isProvider s (msg_sender c))); [done |].
  destruct (paused s); [done |].
  destruct (_ + _ <=? MAX_UINT256); simpl; [| done].
  destruct (block_timestamp c <? _); [done |].
  destruct (negb (b =? currentBatchId s)); [done |].
  destruct (negb (batchOpen s)); [done |].
  destruct (submitted s b (msg_sender c)); done.
Qed.

(** [requestNoteDecryption] as a decision list. *)
Lemma requestNoteDecryption_eq h c b p s :
  requestNoteDecryption h c b p s =
  let a := msg_sender c in
  if paused s then Revert Paused s
  else if negb (lastDecryptionRequest s a + cooldownSeconds s <=? MAX_UINT256)
       then Revert (Panic 17) s
  else if block_timestamp c <? lastDecryptionRequest s a + cooldownSeconds s
       then Revert CooldownActive s
  else if negb (submitted s b p) then Revert NotInitialized s
  else Ok tt (log_event (DecryptionRequested (oracle_requestId c) b)
                (set_lastDecryptionRequestTime a (block_timestamp c)
                   (set_context (oracle_requestId c)
                      {| batchId := b;
                         stateHash := _hashCiphertexts h [noteOf s b p];
                         processed := false |} s))).
Proof.
  unfold_sol; unfold toBytes32; cbv zeta.
  destruct (paused s); [done |].
  destruct (_ + _ <=? MAX_UINT256); simpl; [| done].
  destruct (block_timestamp c <? _); [done |].
  destruct (negb (submitted s b p)); done.
Qed.

(** [openBatch] as a decision list. *)
Lemma openBatch_eq c s :
  openBatch c s =
  if negb (msg_sender c =? owner s) then Revert NotOwner s
  else if paused s then Revert Paused s
  else if batchOpen s then
    if currentBatchId s + 1 <=? MAX_UINT256
    then Ok tt (log_event (BatchOpened (currentBatchId s + 1))
                  (set_batchOpen true (set_currentBatchId (currentBatchId s + 1) s)))
    else Revert (Panic 17) s
  else Ok tt (log_event (BatchOpened (currentBatchId s)) (set_batchOpen true s)).
Proof.
  unfold_sol.
  destruct (negb (msg_sender c =? owner s)); [done |].
  destruct (paused s); [done |].
  destruct (batchOpen s); [| done].
  destruct (_ + 1 <=? MAX_UINT256); done.
Qed.

(** The batch id after one transaction. *)
Lemma after_currentBatchId h call c s :
  currentBatchId (after h call c s) = currentBatchId s
  \/ (call = OpenBatch /\ batchOpen s = true
      /\ currentBatchId (after h call c s) = currentBatchId s + 1).
Proof.
  unfold after, transact.
  destruct call; try (left; sol_cases; fail).
  simpl dispatch. rewrite openBatch_eq.
  repeat case_match; simplify_eq; simpl; auto.
Qed.

(** A recorded submission survives every transaction. *)
Lemma after_keeps_submission h call c s b p :
  submitted s b p = true ->
  submitted (after h call c s) b p = true
  /\ noteOf (after h call c s) b p = noteOf s b p.
Proof.
  intros Hsub. unfold after, transact.
  destruct call; try (sol_cases; fail).
  simpl dispatch. rewrite submitPaymentRequest_eq. cbv zeta.
  repeat case_match; simplify_eq; simpl; try done.
  unfold submitted, noteOf in *; simpl.
  destruct (decide ((_batchId, msg_sender c) = (b, p))) as [E | E].
  - simplify_eq. congruence.
  - rewrite !lookup_insert_ne by done. done.
Qed.

Lemma run_keeps_submission h tr : forall s b p,
  submitted s b p = true ->
  submitted (run h tr s) b p = true /\ noteOf (run h tr s) b p = noteOf s b p.
Proof.
  induction tr as [| [call c] tr IH]; intros s b p Hsub; simpl; [done |].
  destruct (after_keeps_submission h call c s b p Hsub) as [H1 H2].
  destruct (IH _ _ _ H1) as [H3 H4]. split; [done | congruence].
Qed.

Lemma run_currentBatchId h tr : forall s,
  currentBatchId s <= currentBatchId (run h tr s).
Proof.
  induction tr as [| [call c] tr IH]; intros s; simpl; [lia |].
  specialize (IH (after h call c s)).
  destruct (after_currentBatchId h call c s) as [E | (_ & _ & E)]; lia.
Qed.

Lemma uint_val_range (v : uint256) : 0 <= uint_val v <= MAX_UINT256.
Proof.
  pose proof (uint_ok v) as H. unfold isUint256 in H.
  apply andb_true_iff in H as [H1 H2]. apply Z.leb_le in H1, H2. lia.
Qed.

(** The cooldown, once a [uint256], stays one. *)
Lemma after_cooldown_nonneg h call c s :
  0 <= cooldownSeconds s -> 0 <= cooldownSeconds (after h call c s).
Proof.
  intros Hcd. unfold after, transact.
  destruct call; try (sol_cases; fail).
  sol_cases. simpl. apply uint_val_range.
Qed.

(** With a cooldown that is not negative, a throttle clock never goes back:
    an accepted action moves it to a timestamp at or after the deadline. *)
Lemma after_lastSubmission_mono h call c s a :
  0 <= cooldownSeconds s ->
  lastSubmission s a <= lastSubmission (after h call c s) a.
Proof.
  intros Hcd. unfold after, transact.
  destruct call; try (sol_cases; simpl; lia).
  simpl dispatch. rewrite submitPaymentRequest_eq. cbv zeta.
  repeat case_match; simplify_eq; simpl; try lia.
  unfold lastSubmission in *; simpl.
  destruct (decide (msg_sender c = a)) as [E | E].
  - subst. rewrite lookup_insert_eq. simpl. lia.
  - rewrite lookup_insert_ne by done. lia.
Qed.

Lemma after_lastDecryptionRequest_mono h call c s a :
  0 <= cooldownSeconds s ->
  lastDecryptionRequest s a <= lastDecryptionRequest (after h call c s) a.
Proof.
  intros Hcd. unfold after, transact.
  destruct call; try (sol_cases; simpl; lia).
  simpl dispatch. rewrite requestNoteDecryption_eq. cbv zeta.
  repeat case_match; simplify_eq; simpl; try lia.
  unfold lastDecryptionRequest in *; simpl.
  destruct (decide (msg_sender c = a)) as [E | E].
  - subst. rewrite lookup_insert_eq. simpl. lia.
  - rewrite lookup_insert_ne by done. lia.
Qed.

Lemma run_throttle_mono h tr : forall s a,
  0 <= cooldownSeconds s ->
  lastSubmission s a <= lastSubmission (run h tr s) a
  /\ lastDecryptionRequest s a <= lastDecryptionRequest (run h tr s) a.
Proof.
  induction tr as [| [call c] tr IH]; intros s a Hcd; simpl; [lia |].
  pose proof (after_cooldown_nonneg h call c s Hcd) as Hcd'.
  destruct (IH (after h call c s) a Hcd') as [H1 H2].
  pose proof (after_lastSubmission_mono h call c s a Hcd).
  pose proof (after_lastDecryptionRequest_mono h call c s a Hcd).
  lia.
Qed.

(** What an accepted submission and an accepted decryption request establish. *)
Lemma accepted_submit h c b v s :
  outcome h (SubmitPaymentRequest b v) c s = None ->
  lastSubmission s (msg_sender c) + cooldownSeconds s <= block_timestamp c
  /\ lastSubmission (after h (SubmitPaymentRequest b v) c s) (msg_sender c)
     = block_timestamp c.
Proof.
  unfold outcome, after, transact. simpl dispatch.
  rewrite submitPaymentRequest_eq. cbv zeta.
  repeat case_match; simplify_eq; simpl; try done.
  intros _. split; [lia |].
  unfold lastSubmission; simpl. by rewrite lookup_insert_eq.
Qed.

Lemma accepted_request h c b p s :
  outcome h (RequestNoteDecryption b p) c s = None ->
  lastDecryptionRequest s (msg_sender c) + cooldownSeconds s <= block_timestamp c
  /\ lastDecryptionRequest (after h (RequestNoteDecryption b p) c s) (msg_sender c)
     = block_timestamp c.
Proof.
  unfold outcome, after, transact. simpl dispatch.
  rewrite requestNoteDecryption_eq. cbv zeta.
  repeat case_match; simplify_eq; simpl; try done.
  intros _. split; [lia |].
  unfold lastDecryptionRequest; simpl. by rewrite lookup_insert_eq.
Qed.

(** ** The replay guard of the callback *)

(** C1, as amended.  A request whose record has [processed = true] is rejected
    with [ReplayDetected] whatever the caller, the cleartext bytes and the
    proof are, and with the storage untouched: the guard is the first check.
    In particular the call that follows an accepted callback for the same
    request id is rejected that way.  A request id without a record is not
    rejected by this guard: the default record has [processed = false], so the
    call goes on to the length check (and fails there with [DecryptionFailed]
    when the cleartext is not 32 bytes long). *)
Theorem myCallback_replay_guard h rid s :
  (processed (contextOf s rid) = true ->
     forall c ct pf, myCallback h c rid ct pf s = Revert ReplayDetected s)
  /\ (forall c ct pf s', myCallback h c rid ct pf s = Ok tt s' ->
        forall c' ct' pf', myCallback h c' rid ct' pf' s' = Revert ReplayDetected s')
  /\ (decryptionContexts s !! rid = None ->
        forall c ct pf,
          outcome h (MyCallback rid ct pf) c s <> Some ReplayDetected
          /\ (length ct <> 32%nat ->
              myCallback h c rid ct pf s = Revert DecryptionFailed s)).
Proof.
  split; [| split].
  - intros Hp c ct pf. rewrite myCallback_eq. cbv zeta. by rewrite Hp.
  - intros c ct pf s' Hok c' ct' pf'.
    rewrite myCallback_eq in Hok. cbv zeta in Hok.
    repeat case_match; simplify_eq.
    rewrite myCallback_eq. cbv zeta.
    unfold contextOf at 1; simpl. by rewrite lookup_insert_eq.
  - intros Hnone c ct pf.
    assert (Hp : processed (contextOf s rid) = false)
      by (unfold contextOf; by rewrite Hnone).
    split.
    + unfold outcome, transact. simpl dispatch. rewrite myCallback_eq. cbv zeta.
      rewrite Hp. repeat case_match; simplify_eq; simpl; congruence.
    + intros Hlen. rewrite myCallback_eq. cbv zeta. rewrite Hp.
      assert ((Z.of_nat (length ct) =? 32) = false) as -> by (apply Z.eqb_neq; lia).
      done.
Qed.

Lemma myCallback_replay_guard_witness :
  myCallback demoHost (mkCtx 30 400 0) 1 word32 someProof afterCallback
    = Revert ReplayDetected afterCallback
  /\ outcome demoHost (MyCallback 5 [] someProof) (mkCtx 30 400 0) afterRequest
       <> Some ReplayDetected.
Proof.
  split.
  - apply (proj1 (myCallback_replay_guard demoHost 1 afterCallback)).
    vm_compute. reflexivity.
  - apply (proj2 (proj2 (myCallback_replay_guard demoHost 5 afterRequest))).
    vm_compute. reflexivity.
Defined.

(** C1 as stated fails: right after deployment no record exists for request
    id 1, and the callback is rejected by the length check or by the state
    check, not with [ReplayDetected]. *)
Lemma myCallback_unknown_request_not_replay :
  decryptionContexts (deployed 10) !! 1 = None
  /\ outcome demoHost (MyCallback 1 [] someProof) (mkCtx 30 300 0) (deployed 10)
       = Some DecryptionFailed
  /\ outcome demoHost (MyCallback 1 word32 someProof) (mkCtx 30 300 0) (deployed 10)
       = Some InvalidState.
Proof. repeat split; vm_compute; reflexivity. Qed.

(** ** The state check of the callback *)

(** C2, the code at the state check.  For an unprocessed request and a 32-byte
    cleartext, the callback fails with [InvalidState] exactly when the hash of
    the note stored for (recorded batch, [msg.sender]) differs from the
    recorded hash: the slot is the caller's, where [requestNoteDecryption]
    hashed the slot of [_provider]. *)
Theorem myCallback_state_check_reads_caller_slot h c rid ct pf s :
  processed (contextOf s rid) = false ->
  length ct = 32%nat ->
  myCallback h c rid ct pf s = Revert InvalidState s
  <-> _hashCiphertexts h [noteOf s (batchId (contextOf s rid)) (msg_sender c)]
      <> stateHash (contextOf s rid).
Proof.
  intros Hp Hlen. rewrite myCallback_eq. cbv zeta. rewrite Hp, Hlen. simpl.
  destruct (_hashCiphertexts h _ =? _) eqn:E; simpl.
  - apply Z.eqb_eq in E. split; [| done].
    destruct (negb (FHE_checkSignatures h rid ct pf)); discriminate.
  - apply Z.eqb_neq in E. done.
Qed.

(** The failing input: the slot of the requested provider (batch 0, address 10)
    still hashes to the recorded value, and the callback sent from address 30
    is rejected with [InvalidState]. *)
Lemma myCallback_state_check_reads_caller_slot_witness :
  _hashCiphertexts demoHost [noteOf afterRequest 0 10] = stateHash (contextOf afterRequest 1)
  /\ myCallback demoHost (mkCtx 30 300 0) 1 word32 someProof afterRequest
       = Revert InvalidState afterRequest.
Proof.
  split; [vm_compute; reflexivity |].
  apply (proj2 (myCallback_state_check_reads_caller_slot demoHost (mkCtx 30 300 0) 1
                  word32 someProof afterRequest eq_refl eq_refl)).
  vm_compute. discriminate.
Defined.

(** ** Who may call the callback *)

(** C3, as amended.  The callback does not look at the caller's identity.  A
    call whose proof [FHE.checkSignatures] rejects fails and leaves the storage
    as it was, whoever sends it; a call that is accepted had an accepted proof
    and an unprocessed record, and it sets [processed] for that request id
    only. *)
Theorem myCallback_gated_by_proof h c rid ct pf s :
  (FHE_checkSignatures h rid ct pf = false ->
     (exists e, outcome h (MyCallback rid ct pf) c s = Some e)
     /\ after h (MyCallback rid ct pf) c s = s)
  /\ (outcome h (MyCallback rid ct pf) c s = None ->
        FHE_checkSignatures h rid ct pf = true
        /\ processed (contextOf s rid) = false
        /\ processed (contextOf (after h (MyCallback rid ct pf) c s) rid) = true
        /\ forall r, r <> rid ->
             contextOf (after h (MyCallback rid ct pf) c s) r = contextOf s r).
Proof.
  unfold outcome, after, transact. simpl dispatch. rewrite myCallback_eq. cbv zeta.
  split.
  - intros Hsig. rewrite Hsig.
    repeat case_match; simplify_eq; simpl in *; try discriminate; eauto.
  - repeat case_match; simplify_eq; simpl; try discriminate.
    intros _. repeat split.
    + by destruct (FHE_checkSignatures h rid ct pf).
    + unfold contextOf; simpl. by rewrite lookup_insert_eq.
    + intros r Hr. unfold contextOf; simpl. by rewrite lookup_insert_ne.
Qed.

Lemma myCallback_gated_by_proof_witness :
  after demoHost (MyCallback 1 word32 []) (mkCtx 10 300 0) afterRequest = afterRequest
  /\ processed (contextOf afterCallback 1) = true.
Proof.
  split.
  - apply (proj1 (myCallback_gated_by_proof demoHost (mkCtx 10 300 0) 1 word32 []
                    afterRequest)). reflexivity.
  - apply (proj2 (myCallback_gated_by_proof demoHost (mkCtx 10 300 0) 1 word32 someProof
                    afterRequest)). vm_compute. reflexivity.
Defined.

(** C3 as stated fails: no address plays the role of the only admitted caller.
    Whatever address is taken for the oracle, another caller holding a proof
    that verifies gets its callback accepted. *)
Lemma myCallback_accepts_any_caller :
  ~ (exists oracle : Z,
        forall c rid ct pf s,
          msg_sender c <> oracle ->
          outcome demoHost (MyCallback rid ct pf) c s <> None).
Proof.
  intros [oracle H].
  destruct (decide (oracle = 10)) as [-> | Hne].
  - apply (H (mkCtx 11 300 0) 1 word32 someProof (afterRequestOf 11)); simpl; [lia |].
    vm_compute. reflexivity.
  - apply (H (mkCtx 10 300 0) 1 word32 someProof (afterRequestOf 10)); simpl; [lia |].
    vm_compute. reflexivity.
Qed.

(** ** Batches *)

(** C4, as amended.  With the owner calling and the contract not paused:
    when a batch is open and the id is below the [uint256] maximum, [openBatch]
    moves the id to the next one and leaves the batch open; when the batch is
    closed it keeps the id and opens the batch.  Two accepted [openBatch] calls
    in a row end on different ids. *)
Theorem openBatch_advance c s :
  msg_sender c = owner s ->
  paused s = false ->
  (batchOpen s = true -> currentBatchId s < MAX_UINT256 ->
     exists s', openBatch c s = Ok tt s'
                /\ currentBatchId s' = currentBatchId s + 1
                /\ batchOpen s' = true)
  /\ (batchOpen s = false ->
        exists s', openBatch c s = Ok tt s'
                   /\ currentBatchId s' = currentBatchId s
                   /\ batchOpen s' = true)
  /\ (forall c2 s1 s2,
        openBatch c s = Ok tt s1 -> openBatch c2 s1 = Ok tt s2 ->
        currentBatchId s2 = currentBatchId s1 + 1
        /\ currentBatchId s2 <> currentBatchId s1).
Proof.
  intros Hown Hp. split; [| split].
  - intros Hopen Hlt. rewrite openBatch_eq, Hown, Z.eqb_refl, Hp, Hopen. simpl.
    assert ((currentBatchId s + 1 <=? MAX_UINT256) = true) as ->
      by (apply Z.leb_le; lia).
    eexists; split; [reflexivity |]. simpl. done.
  - intros Hclosed. rewrite openBatch_eq, Hown, Z.eqb_refl, Hp, Hclosed. simpl.
    eexists; split; [reflexivity |]. simpl. done.
  - intros c2 s1 s2 H1 H2.
    assert (Ho : batchOpen s1 = true).
    { rewrite openBatch_eq in H1. repeat case_match; simplify_eq; done. }
    rewrite openBatch_eq, Ho in H2.
    repeat case_match; simplify_eq; simpl. lia.
Qed.

Lemma openBatch_advance_witness :
  (exists s', openBatch (mkCtx 10 60 0) afterOpen = Ok tt s'
              /\ currentBatchId s' = currentBatchId afterOpen + 1
              /\ batchOpen s' = true)
  /\ (exists s', openBatch (mkCtx 10 50 0) (deployed 10) = Ok tt s'
                 /\ currentBatchId s' = currentBatchId (deployed 10)
                 /\ batchOpen s' = true).
Proof.
  split.
  - apply (proj1 (openBatch_advance (mkCtx 10 60 0) afterOpen eq_refl eq_refl));
      vm_compute; reflexivity.
  - apply (proj1 (proj2 (openBatch_advance (mkCtx 10 50 0) (deployed 10) eq_refl eq_refl))).
    reflexivity.
Defined.

(** C4 as stated fails at the largest id: the owner calls [openBatch] on an
    open, unpaused contract, the checked increment reverts, and the id stays
    where it was. *)
Lemma openBatch_at_max_id_reverts :
  msg_sender (mkCtx 10 60 0) = owner lastBatchOpen
  /\ paused lastBatchOpen = false
  /\ batchOpen lastBatchOpen = true
  /\ outcome demoHost OpenBatch (mkCtx 10 60 0) lastBatchOpen = Some (Panic 17)
  /\ currentBatchId (after demoHost OpenBatch (mkCtx 10 60 0) lastBatchOpen)
     = currentBatchId lastBatchOpen.
Proof. repeat split; vm_compute; reflexivity. Qed.

(** C10.  No transaction lowers [currentBatchId]; a transaction that changes it
    is an [openBatch] on an open batch and adds exactly one; hence the id never
    decreases along a history. *)
Theorem currentBatchId_monotone h s :
  (forall call c,
     currentBatchId s <= currentBatchId (after h call c s)
     /\ (currentBatchId (after h call c s) <> currentBatchId s ->
         call = OpenBatch /\ batchOpen s = true
         /\ currentBatchId (after h call c s) = currentBatchId s + 1))
  /\ (forall tr, currentBatchId s <= currentBatchId (run h tr s)).
Proof.
  split.
  - intros call c.
    destruct (after_currentBatchId h call c s) as [E | (E1 & E2 & E3)].
    + split; [lia | congruence].
    + split; [lia | done].
  - intros tr. apply run_currentBatchId.
Qed.

Lemma currentBatchId_monotone_witness :
  OpenBatch = OpenBatch /\ batchOpen afterOpen = true
  /\ currentBatchId (after demoHost OpenBatch (mkCtx 10 60 0) afterOpen)
     = currentBatchId afterOpen + 1.
Proof.
  apply (proj2 (proj1 (currentBatchId_monotone demoHost afterOpen) OpenBatch (mkCtx 10 60 0))).
  vm_compute. discriminate.
Defined.

(** ** Deployment *)

(** C9.  The constructor makes the deployer the owner and a provider, logs
    [ProviderAdded] for the deployer, sets the cooldown to 60 seconds and the
    batch id to 0, and leaves the batch closed. *)
Theorem constructor_initial_state (deployer t r : Z) :
  exists s, constructor (mkCtx deployer t r) zeroState = Ok tt s
            /\ owner s = deployer
            /\ isProvider s deployer = true
            /\ events s = [ProviderAdded deployer]
            /\ cooldownSeconds s = 60
            /\ currentBatchId s = 0
            /\ batchOpen s = false
            /\ paused s = false.
Proof.
  eexists. split; [reflexivity |]. simpl.
  repeat split. unfold isProvider; simpl. by rewrite lookup_insert_eq.
Qed.

(** ** Atomicity *)

(** C8.  Whatever call reverts, with whatever error, the storage at the point
    of the revert is the storage the call started from (every check precedes
    the first write), and the transaction leaves that storage in place. *)
Theorem revert_leaves_state_unchanged h call c s e s' :
  dispatch h call c s = Revert e s' ->
  s' = s /\ transact h call c s = (s, Some e).
Proof.
  intros H. split; [by eapply revert_before_write |].
  unfold transact. by rewrite H.
Qed.

Lemma revert_leaves_state_unchanged_witness :
  afterRequest = afterRequest
  /\ transact demoHost (MyCallback 1 word32 someProof) (mkCtx 30 300 0) afterRequest
     = (afterRequest, Some InvalidState).
Proof.
  apply (revert_leaves_state_unchanged demoHost (MyCallback 1 word32 someProof)
           (mkCtx 30 300 0) afterRequest InvalidState afterRequest).
  vm_compute. reflexivity.
Defined.

(** ** One submission per provider and batch *)

(** C5, as amended.  An accepted submission by [p] for batch [b] fills a slot
    that was empty.  Once the slot is filled it keeps its value along every
    history, and every later submission by [p] for [b] fails and changes
    nothing.  The error is the one of the first check that fails, in the order
    of the code: [NotProvider], then [Paused], then the arithmetic [Panic] of a
    deadline above the largest [uint256], then [CooldownActive], then
    [InvalidBatch] (not the current batch, or closed), and [AlreadyInitialized]
    when all of these pass. *)
Theorem one_submission_per_provider h b p :
  (forall c v s s',
     msg_sender c = p ->
     submitPaymentRequest c b v s = Ok tt s' ->
     submitted s b p = false /\ submitted s' b p = true /\ noteOf s' b p = v)
  /\ (forall s,
        submitted s b p = true ->
        (forall tr,
           submitted (run h tr s) b p = true
           /\ noteOf (run h tr s) b p = noteOf s b p)
        /\ (forall c v,
              msg_sender c = p ->
              after h (SubmitPaymentRequest b v) c s = s
              /\ (isProvider s p = false ->
                  outcome h (SubmitPaymentRequest b v) c s = Some NotProvider)
              /\ (isProvider s p = true -> paused s = true ->
                  outcome h (SubmitPaymentRequest b v) c s = Some Paused)
              /\ (isProvider s p = true -> paused s = false ->
                  MAX_UINT256 < lastSubmission s p + cooldownSeconds s ->
                  outcome h (SubmitPaymentRequest b v) c s = Some (Panic 17))
              /\ (isProvider s p = true -> paused s = false ->
                  lastSubmission s p + cooldownSeconds s <= MAX_UINT256 ->
                  block_timestamp c < lastSubmission s p + cooldownSeconds s ->
                  outcome h (SubmitPaymentRequest b v) c s = Some CooldownActive)
              /\ (isProvider s p = true -> paused s = false ->
                  lastSubmission s p + cooldownSeconds s <= MAX_UINT256 ->
                  lastSubmission s p + cooldownSeconds s <= block_timestamp c ->
                  b <> currentBatchId s \/ batchOpen s = false ->
                  outcome h (SubmitPaymentRequest b v) c s = Some InvalidBatch)
              /\ (isProvider s p = true -> paused s = false ->
                  lastSubmission s p + cooldownSeconds s <= MAX_UINT256 ->
                  lastSubmission s p + cooldownSeconds s <= block_timestamp c ->
                  b = currentBatchId s -> batchOpen s = true ->
                  outcome h (SubmitPaymentRequest b v) c s = Some AlreadyInitialized))).
Proof.
  split.
  - intros c v s s' Hc Hok. rewrite submitPaymentRequest_eq in Hok. cbv zeta in Hok.
    subst p. repeat case_match; simplify_eq.
    unfold submitted, noteOf; simpl. rewrite !lookup_insert_eq. done.
  - intros s Hsub. split.
    + intros tr. by apply run_keeps_submission.
    + intros c v Hc. subst p.
      assert (exists e, outcome h (SubmitPaymentRequest b v) c s = Some e) as [e He].
      { unfold outcome, transact. simpl dispatch. rewrite submitPaymentRequest_eq.
        cbv zeta. rewrite Hsub. repeat case_match; simplify_eq; simpl; eauto. }
      split; [by eapply after_revert |]. clear e He.
      unfold outcome, transact. simpl dispatch. rewrite submitPaymentRequest_eq.
      cbv zeta. rewrite Hsub.
      repeat split.
      * intros ->. done.
      * intros -> ->. done.
      * intros -> -> Hover.
        assert ((lastSubmission s (msg_sender c) + cooldownSeconds s <=? MAX_UINT256)
                = false) as -> by (apply Z.leb_gt; lia).
        done.
      * intros -> -> Hfit Hearly.
        assert ((lastSubmission s (msg_sender c) + cooldownSeconds s <=? MAX_UINT256)
                = true) as -> by (apply Z.leb_le; lia).
        assert ((block_timestamp c <? lastSubmission s (msg_sender c) + cooldownSeconds s)
                = true) as -> by (apply Z.ltb_lt; lia).
        done.
      * intros -> -> Hfit Hready Hbatch.
        assert ((lastSubmission s (msg_sender c) + cooldownSeconds s <=? MAX_UINT256)
                = true) as -> by (apply Z.leb_le; lia).
        assert ((block_timestamp c <? lastSubmission s (msg_sender c) + cooldownSeconds s)
                = false) as -> by (apply Z.ltb_ge; lia).
        simpl. destruct (b =? currentBatchId s) eqn:E; simpl; [| done].
        apply Z.eqb_eq in E. destruct Hbatch as [Hb | ->]; done.
      * intros -> -> Hfit Hready Hb ->.
        assert ((lastSubmission s (msg_sender c) + cooldownSeconds s <=? MAX_UINT256)
                = true) as -> by (apply Z.leb_le; lia).
        assert ((block_timestamp c <? lastSubmission s (msg_sender c) + cooldownSeconds s)
                = false) as -> by (apply Z.ltb_ge; lia).
        assert ((b =? currentBatchId s) = true) as -> by (by apply Z.eqb_eq).
        done.
Qed.

Lemma one_submission_per_provider_witness :
  (submitted afterOpen 0 10 = false /\ submitted afterSubmit 0 10 = true
   /\ noteOf afterSubmit 0 10 = 7)
  /\ noteOf (run demoHost [(RequestNoteDecryption 0 10, mkCtx 20 200 1)] afterSubmit) 0 10
     = noteOf afterSubmit 0 10
  /\ after demoHost (SubmitPaymentRequest 0 8) (mkCtx 10 120 0) afterSubmit = afterSubmit
  /\ outcome demoHost (SubmitPaymentRequest 0 8) (mkCtx 10 120 0) afterSubmit
     = Some CooldownActive
  /\ outcome demoHost (SubmitPaymentRequest 0 8) (mkCtx 10 160 0) afterSubmit
     = Some AlreadyInitialized
  /\ outcome demoHost (SubmitPaymentRequest 0 8) (mkCtx 10 160 0) pausedAfterSubmit
     = Some Paused
  /\ outcome demoHost (SubmitPaymentRequest 0 8) (mkCtx 10 160 0) maxCooldownAfterSubmit
     = Some (Panic 17).
Proof.
  pose proof (one_submission_per_provider demoHost 0 10) as [H1 H2].
  split.
  - apply (H1 (mkCtx 10 100 0) 7 afterOpen afterSubmit eq_refl).
    vm_compute. reflexivity.
  - assert (Hs : submitted afterSubmit 0 10 = true) by (vm_compute; reflexivity).
    assert (Hp : submitted pausedAfterSubmit 0 10 = true) by (vm_compute; reflexivity).
    assert (Hm : submitted maxCooldownAfterSubmit 0 10 = true) by (vm_compute; reflexivity).
    destruct (H2 afterSubmit Hs) as (Hrun & Hlater).
    destruct (Hlater (mkCtx 10 120 0) 8 eq_refl) as (Hsame & _ & _ & _ & Hcool & _).
    destruct (Hlater (mkCtx 10 160 0) 8 eq_refl) as (_ & _ & _ & _ & _ & _ & Hdup).
    destruct (H2 pausedAfterSubmit Hp) as (_ & Hlater').
    destruct (Hlater' (mkCtx 10 160 0) 8 eq_refl) as (_ & _ & Hpaused & _).
    destruct (H2 maxCooldownAfterSubmit Hm) as (_ & Hlater'').
    destruct (Hlater'' (mkCtx 10 160 0) 8 eq_refl) as (_ & _ & _ & Hpanic & _).
    split; [apply (Hrun [(RequestNoteDecryption 0 10, mkCtx 20 200 1)]) |].
    split; [exact Hsame |].
    split; [apply Hcool; vm_compute; congruence |].
    split; [apply Hdup; vm_compute; congruence |].
    split; [apply Hpaused; vm_compute; congruence |].
    apply Hpanic; vm_compute; congruence.
Defined.

(** C5 as stated fails on the error: the deployer's second submission for
    batch 0, twenty seconds after the first, is stopped by the cooldown check,
    which comes before the duplicate check. *)
Lemma second_submit_within_cooldown :
  submitted afterSubmit 0 10 = true
  /\ outcome demoHost (SubmitPaymentRequest 0 8) (mkCtx 10 120 0) afterSubmit
     = Some CooldownActive
  /\ outcome demoHost (SubmitPaymentRequest 0 8) (mkCtx 10 120 0) afterSubmit
     <> Some AlreadyInitialized.
Proof. repeat split; vm_compute; congruence. Qed.

(** ** Requesting a decryption *)

(** C7.  With the contract not paused and the caller's cooldown elapsed,
    [requestNoteDecryption] fails with [NotInitialized] when nothing was
    submitted for (batch, provider); otherwise it succeeds and stores, under
    the request id the oracle returned, the record with the batch id, the
    [keccak256] hash of the four words of [abi.encode(cts, address(this))]
    (array offset 64, the contract's own address as the context identifier,
    array length 1, the stored handle), and [processed = false]; it also
    restarts the caller's request clock and logs [DecryptionRequested]. *)
Theorem requestNoteDecryption_records_context h c b p s :
  paused s = false ->
  lastDecryptionRequest s (msg_sender c) + cooldownSeconds s <= block_timestamp c ->
  block_timestamp c <= MAX_UINT256 ->
  (submitted s b p = false ->
     requestNoteDecryption h c b p s = Revert NotInitialized s)
  /\ (submitted s b p = true ->
        exists s',
          requestNoteDecryption h c b p s = Ok tt s'
          /\ decryptionContexts s' !! oracle_requestId c
             = Some {| batchId := b;
                       stateHash := keccak256 h [64; this_address h; 1; noteOf s b p];
                       processed := false |}
          /\ lastDecryptionRequest s' (msg_sender c) = block_timestamp c
          /\ events s' = events s ++ [DecryptionRequested (oracle_requestId c) b]).
Proof.
  intros Hp Hcd Hmax.
  rewrite requestNoteDecryption_eq. cbv zeta. rewrite Hp.
  assert ((lastDecryptionRequest s (msg_sender c) + cooldownSeconds s <=? MAX_UINT256)
          = true) as -> by (apply Z.leb_le; lia).
  assert ((block_timestamp c <? lastDecryptionRequest s (msg_sender c) + cooldownSeconds s)
          = false) as -> by (apply Z.ltb_ge; lia).
  simpl. split; intros Hsub; rewrite Hsub; simpl; [done |].
  eexists. split; [reflexivity |]. simpl.
  rewrite lookup_insert_eq. unfold lastDecryptionRequest; simpl.
  rewrite lookup_insert_eq. done.
Qed.

Lemma requestNoteDecryption_records_context_witness :
  requestNoteDecryption demoHost (mkCtx 20 200 1) 0 11 afterSubmit
    = Revert NotInitialized afterSubmit
  /\ exists s',
       requestNoteDecryption demoHost (mkCtx 20 200 1) 0 10 afterSubmit = Ok tt s'
       /\ decryptionContexts s' !! 1
          = Some {| batchId := 0;
                    stateHash := keccak256 demoHost
                                   [64; this_address demoHost; 1; noteOf afterSubmit 0 10];
                    processed := false |}
       /\ lastDecryptionRequest s' 20 = 200
       /\ events s' = events afterSubmit ++ [DecryptionRequested 1 0].
Proof.
  assert (Hp : paused afterSubmit = false) by reflexivity.
  assert (Hcd : lastDecryptionRequest afterSubmit 20 + cooldownSeconds afterSubmit <= 200)
    by (vm_compute; congruence).
  assert (Hmax : 200 <= MAX_UINT256) by (vm_compute; congruence).
  split.
  - apply (proj1 (requestNoteDecryption_records_context demoHost (mkCtx 20 200 1) 0 11
                    afterSubmit Hp Hcd Hmax)).
    vm_compute. reflexivity.
  - apply (proj2 (requestNoteDecryption_records_context demoHost (mkCtx 20 200 1) 0 10
                    afterSubmit Hp Hcd Hmax)).
    vm_compute. reflexivity.
Defined.

(** ** Throttling *)

(** C6, as amended.  With a stored cooldown that is a [uint256], two accepted
    submissions by the same actor lie at least the cooldown in force at the
    second apart, whatever happens in between; the same holds for two accepted
    decryption requests.  An attempt made before the actor's last accepted
    action plus the cooldown never succeeds and leaves the storage as it was.
    Its error is the one of the first check that fails, in the order of the
    code: [NotProvider] (submission by a caller that is no provider), then
    [Paused], then the arithmetic [Panic] of a deadline above the largest
    [uint256], and [CooldownActive] when all of these pass. *)
Theorem cooldown_separates_actions h :
  (forall c1 b1 v1 mid c2 b2 v2 s,
     0 <= cooldownSeconds s ->
     msg_sender c2 = msg_sender c1 ->
     outcome h (SubmitPaymentRequest b1 v1) c1 s = None ->
     outcome h (SubmitPaymentRequest b2 v2) c2
       (run h mid (after h (SubmitPaymentRequest b1 v1) c1 s)) = None ->
     block_timestamp c1
       + cooldownSeconds (run h mid (after h (SubmitPaymentRequest b1 v1) c1 s))
     <= block_timestamp c2)
  /\ (forall c1 b1 p1 mid c2 b2 p2 s,
        0 <= cooldownSeconds s ->
        msg_sender c2 = msg_sender c1 ->
        outcome h (RequestNoteDecryption b1 p1) c1 s = None ->
        outcome h (RequestNoteDecryption b2 p2) c2
          (run h mid (after h (RequestNoteDecryption b1 p1) c1 s)) = None ->
        block_timestamp c1
          + cooldownSeconds (run h mid (after h (RequestNoteDecryption b1 p1) c1 s))
        <= block_timestamp c2)
  /\ (forall c b v s,
        block_timestamp c < lastSubmission s (msg_sender c) + cooldownSeconds s ->
        after h (SubmitPaymentRequest b v) c s = s
        /\ (isProvider s (msg_sender c) = false ->
            outcome h (SubmitPaymentRequest b v) c s = Some NotProvider)
        /\ (isProvider s (msg_sender c) = true -> paused s = true ->
            outcome h (SubmitPaymentRequest b v) c s = Some Paused)
        /\ (isProvider s (msg_sender c) = true -> paused s = false ->
            MAX_UINT256 < lastSubmission s (msg_sender c) + cooldownSeconds s ->
            outcome h (SubmitPaymentRequest b v) c s = Some (Panic 17))
        /\ (isProvider s (msg_sender c) = true -> paused s = false ->
            lastSubmission s (msg_sender c) + cooldownSeconds s <= MAX_UINT256 ->
            outcome h (SubmitPaymentRequest b v) c s = Some CooldownActive))
  /\ (forall c b p s,
        block_timestamp c < lastDecryptionRequest s (msg_sender c) + cooldownSeconds s ->
        after h (RequestNoteDecryption b p) c s = s
        /\ (paused s = true ->
            outcome h (RequestNoteDecryption b p) c s = Some Paused)
        /\ (paused s = false ->
            MAX_UINT256 < lastDecryptionRequest s (msg_sender c) + cooldownSeconds s ->
            outcome h (RequestNoteDecryption b p) c s = Some (Panic 17))
        /\ (paused s = false ->
            lastDecryptionRequest s (msg_sender c) + cooldownSeconds s <= MAX_UINT256 ->
            outcome h (RequestNoteDecryption b p) c s = Some CooldownActive)).
Proof.
  split; [| split; [| split]].
  - intros c1 b1 v1 mid c2 b2 v2 s Hcd Hsame H1 H2.
    apply accepted_submit in H1 as [_ Hlast].
    apply accepted_submit in H2 as [Hready _].
    rewrite Hsame in Hready.
    pose proof (after_cooldown_nonneg h (SubmitPaymentRequest b1 v1) c1 s Hcd) as Hcd'.
    destruct (run_throttle_mono h mid (after h (SubmitPaymentRequest b1 v1) c1 s)
                (msg_sender c1) Hcd') as [Hmono _].
    lia.
  - intros c1 b1 p1 mid c2 b2 p2 s Hcd Hsame H1 H2.
    apply accepted_request in H1 as [_ Hlast].
    apply accepted_request in H2 as [Hready _].
    rewrite Hsame in Hready.
    pose proof (after_cooldown_nonneg h (RequestNoteDecryption b1 p1) c1 s Hcd) as Hcd'.
    destruct (run_throttle_mono h mid (after h (RequestNoteDecryption b1 p1) c1 s)
                (msg_sender c1) Hcd') as [_ Hmono].
    lia.
  - intros c b v s Hearly.
    assert (Hlt : (block_timestamp c <? lastSubmission s (msg_sender c) + cooldownSeconds s)
                  = true) by (apply Z.ltb_lt; lia).
    assert (exists e, outcome h (SubmitPaymentRequest b v) c s = Some e) as [e He].
    { unfold outcome, transact. simpl dispatch. rewrite submitPaymentRequest_eq.
      cbv zeta. rewrite Hlt. repeat case_match; simplify_eq; simpl; eauto. }
    split; [by eapply after_revert |]. clear e He.
    unfold outcome, transact. simpl dispatch. rewrite submitPaymentRequest_eq.
    cbv zeta. rewrite Hlt.
    repeat split.
    + intros ->. done.
    + intros -> ->. done.
    + intros -> -> Hover.
      assert ((lastSubmission s (msg_sender c) + cooldownSeconds s <=? MAX_UINT256)
              = false) as -> by (apply Z.leb_gt; lia).
      done.
    + intros -> -> Hfit.
      assert ((lastSubmission s (msg_sender c) + cooldownSeconds s <=? MAX_UINT256)
              = true) as -> by (apply Z.leb_le; lia).
      done.
  - intros c b p s Hearly.
    assert (Hlt : (block_timestamp c
                   <? lastDecryptionRequest s (msg_sender c) + cooldownSeconds s) = true)
      by (apply Z.ltb_lt; lia).
    assert (exists e, outcome h (RequestNoteDecryption b p) c s = Some e) as [e He].
    { unfold outcome, transact. simpl dispatch. rewrite requestNoteDecryption_eq.
      cbv zeta. rewrite Hlt. repeat case_match; simplify_eq; simpl; eauto. }
    split; [by eapply after_revert |]. clear e He.
    unfold outcome, transact. simpl dispatch. rewrite requestNoteDecryption_eq.
    cbv zeta. rewrite Hlt.
    repeat split.
    + intros ->. done.
    + intros -> Hover.
      assert ((lastDecryptionRequest s (msg_sender c) + cooldownSeconds s <=? MAX_UINT256)
              = false) as -> by (apply Z.leb_gt; lia).
      done.
    + intros -> Hfit.
      assert ((lastDecryptionRequest s (msg_sender c) + cooldownSeconds s <=? MAX_UINT256)
              = true) as -> by (apply Z.leb_le; lia).
      done.
Qed.

Lemma cooldown_separates_actions_witness :
  block_timestamp (mkCtx 10 100 0)
    + cooldownSeconds
        (run demoHost midHistory
           (after demoHost (SubmitPaymentRequest 0 7) (mkCtx 10 100 0) afterOpen))
    <= block_timestamp (mkCtx 10 160 0)
  /\ outcome demoHost (SubmitPaymentRequest 0 8) (mkCtx 10 120 0) afterSubmit
     = Some CooldownActive
  /\ outcome demoHost (SubmitPaymentRequest 0 8) (mkCtx 10 120 0) pausedAfterSubmit
     = Some Paused
  /\ outcome demoHost (SubmitPaymentRequest 0 8) (mkCtx 20 30 0) afterSubmit
     = Some NotProvider
  /\ outcome demoHost (SubmitPaymentRequest 0 8) (mkCtx 10 120 0) maxCooldownAfterSubmit
     = Some (Panic 17)
  /\ outcome demoHost (RequestNoteDecryption 0 10) (mkCtx 20 210 2) afterRequest
     = Some CooldownActive.
Proof.
  pose proof (cooldown_separates_actions demoHost) as (Hsub & _ & Hearly & Hearly').
  split.
  { apply (Hsub (mkCtx 10 100 0) 0 7 midHistory (mkCtx 10 160 0) 1 9 afterOpen).
    - vm_compute. discriminate.
    - reflexivity.
    - vm_compute. reflexivity.
    - vm_compute. reflexivity. }
  assert (He1 : block_timestamp (mkCtx 10 120 0)
                < lastSubmission afterSubmit (msg_sender (mkCtx 10 120 0))
                  + cooldownSeconds afterSubmit) by (vm_compute; reflexivity).
  assert (He2 : block_timestamp (mkCtx 10 120 0)
                < lastSubmission pausedAfterSubmit (msg_sender (mkCtx 10 120 0))
                  + cooldownSeconds pausedAfterSubmit) by (vm_compute; reflexivity).
  assert (He3 : block_timestamp (mkCtx 20 30 0)
                < lastSubmission afterSubmit (msg_sender (mkCtx 20 30 0))
                  + cooldownSeconds afterSubmit) by (vm_compute; reflexivity).
  assert (He4 : block_timestamp (mkCtx 10 120 0)
                < lastSubmission maxCooldownAfterSubmit (msg_sender (mkCtx 10 120 0))
                  + cooldownSeconds maxCooldownAfterSubmit) by (vm_compute; reflexivity).
  assert (He5 : block_timestamp (mkCtx 20 210 2)
                < lastDecryptionRequest afterRequest (msg_sender (mkCtx 20 210 2))
                  + cooldownSeconds afterRequest) by (vm_compute; reflexivity).
  destruct (Hearly (mkCtx 10 120 0) 0 8 afterSubmit He1) as (_ & _ & _ & _ & H1).
  destruct (Hearly (mkCtx 10 120 0) 0 8 pausedAfterSubmit He2) as (_ & _ & H2 & _).
  destruct (Hearly (mkCtx 20 30 0) 0 8 afterSubmit He3) as (_ & H3 & _).
  destruct (Hearly (mkCtx 10 120 0) 0 8 maxCooldownAfterSubmit He4) as (_ & _ & _ & H4 & _).
  destruct (Hearly' (mkCtx 20 210 2) 0 10 afterRequest He5) as (_ & _ & _ & H5).
  split; [apply H1; vm_compute; congruence |].
  split; [apply H2; vm_compute; congruence |].
  split; [apply H3; vm_compute; congruence |].
  split; [apply H4; vm_compute; congruence |].
  apply H5; vm_compute; congruence.
Defined.

(** C6 as stated fails on the error: an attempt inside the cooldown window is
    rejected with [Paused] when the contract is paused, with [NotProvider] when
    the caller is no provider, and with a [Panic] when the deadline overflows;
    only otherwise with [CooldownActive]. *)
Lemma early_attempt_other_errors :
  (block_timestamp (mkCtx 10 120 0)
     < lastSubmission pausedAfterSubmit 10 + cooldownSeconds pausedAfterSubmit
   /\ outcome demoHost (SubmitPaymentRequest 0 8) (mkCtx 10 120 0) pausedAfterSubmit
      = Some Paused)
  /\ (block_timestamp (mkCtx 20 30 0)
        < lastSubmission afterSubmit 20 + cooldownSeconds afterSubmit
      /\ outcome demoHost (SubmitPaymentRequest 0 8) (mkCtx 20 30 0) afterSubmit
         = Some NotProvider)
  /\ (block_timestamp (mkCtx 10 120 0)
        < lastSubmission maxCooldownAfterSubmit 10 + cooldownSeconds maxCooldownAfterSubmit
      /\ outcome demoHost (SubmitPaymentRequest 0 8) (mkCtx 10 120 0) maxCooldownAfterSubmit
         = Some (Panic 17)).
Proof. repeat split; vm_compute; reflexivity. Qed.

(** ** Further properties of the contract *)

(** The remaining functions as decision lists. *)
Lemma addProvider_eq c p s :
  addProvider c p s =
  if negb (msg_sender c =? owner s) then Revert NotOwner s
  else Ok tt (log_event (ProviderAdded p) (set_provider p true s)).
Proof. unfold_sol. by destruct (negb (msg_sender c =? owner s)). Qed.

Lemma removeProvider_eq c p s :
  removeProvider c p s =
  if negb (msg_sender c =? owner s) then Revert NotOwner s
  else Ok tt (log_event (ProviderRemoved p) (set_provider p false s)).
Proof. unfold_sol. by destruct (negb (msg_sender c =? owner s)). Qed.

Lemma setCooldown_eq c v s :
  setCooldown c v s =
  if negb (msg_sender c =? owner s) then Revert NotOwner s
  else Ok tt (log_event (CooldownSet (uint_val v)) (set_cooldownSeconds (uint_val v) s)).
Proof. unfold_sol. by destruct (negb (msg_sender c =? owner s)). Qed.

Lemma setPaused_eq c v s :
  setPaused c v s =
  if negb (msg_sender c =? owner s) then Revert NotOwner s
  else Ok tt (log_event (if v then EmitPaused else EmitUnpaused) (set_paused v s)).
Proof. unfold_sol. destruct (negb (msg_sender c =? owner s)); [done |]. by destruct v. Qed.

Lemma closeBatch_eq c s :
  closeBatch c s =
  if negb (msg_sender c =? owner s) then Revert NotOwner s
  else if paused s then Revert Paused s
  else if negb (batchOpen s) then Revert InvalidBatch s
  else Ok tt (log_event (BatchClosed (currentBatchId s)) (set_batchOpen false s)).
Proof.
  unfold_sol.
  destruct (negb (msg_sender c =? owner s)); [done |].
  destruct (paused s); [done |].
  by destruct (negb (batchOpen s)).
Qed.

(** Rewriting a dispatched call into its decision list. *)
Ltac call_eq :=
  simpl dispatch;
  rewrite ?addProvider_eq, ?removeProvider_eq, ?setCooldown_eq, ?setPaused_eq,
    ?openBatch_eq, ?closeBatch_eq, ?submitPaymentRequest_eq,
    ?requestNoteDecryption_eq, ?myCallback_eq;
  cbv zeta.

Ltac by_call call :=
  unfold after, outcome, transact; destruct call; call_eq.

Lemma owner_test_false c s : msg_sender c <> owner s -> (msg_sender c =? owner s) = false.
Proof. intros H. by apply Z.eqb_neq. Qed.

Lemma owner_test_true c s : msg_sender c = owner s -> (msg_sender c =? owner s) = true.
Proof. intros H. by apply Z.eqb_eq. Qed.

Lemma after_owner h call c s : owner (after h call c s) = owner s.
Proof. by_call call; repeat case_match; simplify_eq; done. Qed.

(** X1.  Each of the six functions under [onlyOwner] (provider management,
    cooldown, pause, opening and closing a batch) reverts with [NotOwner] for
    every caller other than the owner, before any other check and also while
    the contract is paused, with the storage untouched. *)
Theorem onlyOwner_rejects_other_callers h call c s :
  hasOnlyOwner call = true ->
  msg_sender c <> owner s ->
  dispatch h call c s = Revert NotOwner s.
Proof.
  intros Hadm Hne. apply owner_test_false in Hne.
  destruct call; try discriminate; call_eq; by rewrite Hne.
Qed.

Lemma onlyOwner_rejects_other_callers_witness :
  dispatch demoHost CloseBatch (mkCtx 20 120 0) pausedAfterSubmit
  = Revert NotOwner pausedAfterSubmit.
Proof.
  apply onlyOwner_rejects_other_callers; [reflexivity |].
  vm_compute. discriminate.
Defined.

(** X2.  No function writes [owner]: along every history the owner stays who
    it was, so after deployment it is the deployer for good. *)
Theorem owner_is_fixed h tr :
  (forall s, owner (run h tr s) = owner s)
  /\ (forall deployer, owner (run h tr (deployed deployer)) = deployer).
Proof.
  assert (H : forall s, owner (run h tr s) = owner s).
  { induction tr as [| [call c] tr IH]; intros s; simpl; [done |].
    by rewrite IH, after_owner. }
  split; [done |]. intros d. by rewrite H.
Qed.

(** X3.  Provider membership of an address changes only through the owner's
    [addProvider] or [removeProvider] for that very address. *)
Theorem providers_changed_only_by_owner h call c s a :
  isProvider (after h call c s) a <> isProvider s a ->
  msg_sender c = owner s /\ (call = AddProvider a \/ call = RemoveProvider a).
Proof.
  by_call call; repeat case_match; simplify_eq; simpl; try done;
    unfold isProvider; simpl; intros Hch.
  all: match goal with
       | H : negb (_ =? _) = false |- _ =>
           apply negb_false_iff, Z.eqb_eq in H
       end.
  all: split; [done |].
  all: destruct (decide (_provider = a)) as [-> | Hne]; [auto |].
  all: by rewrite lookup_insert_ne in Hch.
Qed.

Lemma providers_changed_only_by_owner_witness :
  msg_sender (mkCtx 10 120 0) = owner afterSubmit
  /\ (RemoveProvider 10 = AddProvider 10 \/ RemoveProvider 10 = RemoveProvider 10).
Proof.
  apply (providers_changed_only_by_owner demoHost (RemoveProvider 10) (mkCtx 10 120 0)
           afterSubmit 10).
  vm_compute. discriminate.
Defined.

(** X4.  The owner's [addProvider] and [removeProvider] always succeed, paused
    or not; they set the membership of the given address, leave every other
    address as it was, and do not touch batches, submissions, throttle clocks
    or recorded requests. *)
Theorem provider_management h c p s :
  msg_sender c = owner s ->
  (outcome h (AddProvider p) c s = None
   /\ isProvider (after h (AddProvider p) c s) p = true
   /\ (forall a, a <> p ->
         isProvider (after h (AddProvider p) c s) a = isProvider s a)
   /\ events (after h (AddProvider p) c s) = events s ++ [ProviderAdded p])
  /\ (outcome h (RemoveProvider p) c s = None
      /\ isProvider (after h (RemoveProvider p) c s) p = false
      /\ (forall a, a <> p ->
            isProvider (after h (RemoveProvider p) c s) a = isProvider s a)
      /\ events (after h (RemoveProvider p) c s) = events s ++ [ProviderRemoved p])
  /\ (forall call, call = AddProvider p \/ call = RemoveProvider p ->
        let s' := after h call c s in
        paused s' = paused s /\ cooldownSeconds s' = cooldownSeconds s
        /\ currentBatchId s' = currentBatchId s /\ batchOpen s' = batchOpen s
        /\ encryptedNotes s' = encryptedNotes s /\ hasSubmitted s' = hasSubmitted s
        /\ lastSubmissionTime s' = lastSubmissionTime s
        /\ lastDecryptionRequestTime s' = lastDecryptionRequestTime s
        /\ decryptionContexts s' = decryptionContexts s).
Proof.
  intros Hown. apply owner_test_true in Hown.
  unfold outcome, after, transact. simpl dispatch.
  rewrite addProvider_eq, removeProvider_eq, Hown. simpl.
  unfold isProvider; simpl. rewrite !lookup_insert_eq.
  split; [| split].
  - repeat split. intros a Ha. by rewrite lookup_insert_ne.
  - repeat split. intros a Ha. by rewrite lookup_insert_ne.
  - intros call [-> | ->]; simpl; rewrite ?addProvider_eq, ?removeProvider_eq, Hown;
      simpl; done.
Qed.

Lemma provider_management_witness :
  outcome demoHost (AddProvider 11) (mkCtx 10 120 0) pausedAfterSubmit = None
  /\ isProvider (after demoHost (AddProvider 11) (mkCtx 10 120 0) pausedAfterSubmit) 11 = true
  /\ (forall a, a <> 11 ->
        isProvider (after demoHost (AddProvider 11) (mkCtx 10 120 0) pausedAfterSubmit) a
        = isProvider pausedAfterSubmit a)
  /\ events (after demoHost (AddProvider 11) (mkCtx 10 120 0) pausedAfterSubmit)
     = events pausedAfterSubmit ++ [ProviderAdded 11].
Proof.
  apply (proj1 (provider_management demoHost (mkCtx 10 120 0) 11 pausedAfterSubmit eq_refl)).
Defined.

(** X5.  Removing a provider takes away the right to submit and nothing else:
    every later submission by that address reverts with [NotProvider] (the
    owner included, once removed), while the notes it submitted stay stored
    and can still be requested for decryption by anybody. *)
Theorem removed_provider_cannot_submit h c p s :
  msg_sender c = owner s ->
  (forall c' b v,
     msg_sender c' = p ->
     dispatch h (SubmitPaymentRequest b v) c' (after h (RemoveProvider p) c s)
     = Revert NotProvider (after h (RemoveProvider p) c s))
  /\ (forall b a,
        submitted (after h (RemoveProvider p) c s) b a = submitted s b a
        /\ noteOf (after h (RemoveProvider p) c s) b a = noteOf s b a)
  /\ (forall c' b,
        paused s = false ->
        submitted s b p = true ->
        lastDecryptionRequest s (msg_sender c') + cooldownSeconds s <= block_timestamp c' ->
        block_timestamp c' <= MAX_UINT256 ->
        outcome h (RequestNoteDecryption b p) c' (after h (RemoveProvider p) c s) = None).
Proof.
  intros Hown. apply owner_test_true in Hown.
  unfold after, outcome, transact. simpl dispatch. rewrite removeProvider_eq, Hown. simpl.
  split; [| split].
  - intros c' b v Hc. rewrite submitPaymentRequest_eq. cbv zeta.
    unfold isProvider; simpl. rewrite Hc, lookup_insert_eq. done.
  - done.
  - intros c' b Hp Hsub Hcd Hmax. rewrite requestNoteDecryption_eq. cbv zeta.
    unfold lastDecryptionRequest, submitted in *; simpl. rewrite Hp, Hsub.
    assert ((default 0 (lastDecryptionRequestTime s !! msg_sender c') + cooldownSeconds s
             <=? MAX_UINT256) = true) as -> by (apply Z.leb_le; lia).
    assert ((block_timestamp c'
             <? default 0 (lastDecryptionRequestTime s !! msg_sender c') + cooldownSeconds s)
            = false) as -> by (apply Z.ltb_ge; lia).
    done.
Qed.

Lemma removed_provider_cannot_submit_witness :
  dispatch demoHost (SubmitPaymentRequest 0 8) (mkCtx 10 300 0)
    (after demoHost (RemoveProvider 10) (mkCtx 10 120 0) afterSubmit)
  = Revert NotProvider (after demoHost (RemoveProvider 10) (mkCtx 10 120 0) afterSubmit)
  /\ outcome demoHost (RequestNoteDecryption 0 10) (mkCtx 20 200 1)
       (after demoHost (RemoveProvider 10) (mkCtx 10 120 0) afterSubmit) = None.
Proof.
  pose proof (removed_provider_cannot_submit demoHost (mkCtx 10 120 0) 10 afterSubmit eq_refl)
    as (H1 & _ & H3).
  split.
  - apply (H1 (mkCtx 10 300 0) 0 8 eq_refl).
  - apply (H3 (mkCtx 20 200 1) 0); vm_compute; congruence.
Defined.

(** X6.  While the contract is paused, [openBatch], [closeBatch],
    [submitPaymentRequest] and [requestNoteDecryption] all fail and leave the
    storage as it was.  The error is [Paused], unless the role modifier, which
    runs first, rejects the caller: [NotOwner] for [openBatch] and [closeBatch]
    sent by another address than the owner, [NotProvider] for a submission by
    an address that is no provider; [requestNoteDecryption] has no role
    modifier and always fails with [Paused]. *)
Theorem paused_blocks_guarded_calls h call c s :
  paused s = true ->
  hasWhenNotPaused call = true ->
  after h call c s = s
  /\ (hasOnlyOwner call = true -> msg_sender c <> owner s ->
      outcome h call c s = Some NotOwner)
  /\ (hasOnlyOwner call = true -> msg_sender c = owner s ->
      outcome h call c s = Some Paused)
  /\ (forall b v, call = SubmitPaymentRequest b v ->
        isProvider s (msg_sender c) = false ->
        outcome h call c s = Some NotProvider)
  /\ (forall b v, call = SubmitPaymentRequest b v ->
        isProvider s (msg_sender c) = true ->
        outcome h call c s = Some Paused)
  /\ (forall b p, call = RequestNoteDecryption b p ->
        outcome h call c s = Some Paused).
Proof.
  intros Hp Hg.
  assert (exists e, outcome h call c s = Some e) as [e He].
  { unfold outcome, transact. destruct call; try discriminate; call_eq; rewrite Hp;
      repeat case_match; simplify_eq; simpl; eauto. }
  split; [by eapply after_revert |]. clear e He.
  unfold outcome, transact.
  destruct call; try discriminate; call_eq; rewrite Hp; simpl.
  - split; [intros _ Hne; by rewrite (owner_test_false c s Hne) |].
    split; [intros _ Heq; by rewrite (owner_test_true c s Heq) |].
    repeat split; intros; discriminate.
  - split; [intros _ Hne; by rewrite (owner_test_false c s Hne) |].
    split; [intros _ Heq; by rewrite (owner_test_true c s Heq) |].
    repeat split; intros; discriminate.
  - split; [discriminate |]. split; [discriminate |].
    split; [intros b v _ ->; done |].
    split; [intros b v _ ->; done |].
    intros; discriminate.
  - split; [discriminate |]. split; [discriminate |].
    split; [intros; discriminate |]. split; [intros; discriminate |]. done.
Qed.

Lemma paused_blocks_guarded_calls_witness :
  outcome demoHost (RequestNoteDecryption 0 10) (mkCtx 20 200 1) pausedAfterSubmit
  = Some Paused
  /\ outcome demoHost (SubmitPaymentRequest 0 8) (mkCtx 20 200 0) pausedAfterSubmit
     = Some NotProvider
  /\ outcome demoHost (SubmitPaymentRequest 0 8) (mkCtx 10 200 0) pausedAfterSubmit
     = Some Paused
  /\ outcome demoHost OpenBatch (mkCtx 20 200 0) pausedAfterSubmit = Some NotOwner
  /\ outcome demoHost CloseBatch (mkCtx 10 200 0) pausedAfterSubmit = Some Paused.
Proof.
  assert (Hp : paused pausedAfterSubmit = true) by reflexivity.
  split.
  { destruct (paused_blocks_guarded_calls demoHost (RequestNoteDecryption 0 10)
                (mkCtx 20 200 1) pausedAfterSubmit Hp eq_refl) as (_ & _ & _ & _ & _ & H).
    apply (H 0 10 eq_refl). }
  split.
  { destruct (paused_blocks_guarded_calls demoHost (SubmitPaymentRequest 0 8)
                (mkCtx 20 200 0) pausedAfterSubmit Hp eq_refl) as (_ & _ & _ & H & _).
    apply (H 0 8 eq_refl). vm_compute. reflexivity. }
  split.
  { destruct (paused_blocks_guarded_calls demoHost (SubmitPaymentRequest 0 8)
                (mkCtx 10 200 0) pausedAfterSubmit Hp eq_refl) as (_ & _ & _ & _ & H & _).
    apply (H 0 8 eq_refl). vm_compute. reflexivity. }
  split.
  { destruct (paused_blocks_guarded_calls demoHost OpenBatch
                (mkCtx 20 200 0) pausedAfterSubmit Hp eq_refl) as (_ & H & _).
    apply H; [reflexivity | vm_compute; discriminate]. }
  destruct (paused_blocks_guarded_calls demoHost CloseBatch
              (mkCtx 10 200 0) pausedAfterSubmit Hp eq_refl) as (_ & _ & H & _).
  apply H; reflexivity.
Defined.

(** X7.  [setPaused] itself is not under [whenNotPaused]: the owner's call
    succeeds in every state, sets the flag to its argument and logs one event,
    so a pause can always be lifted; pausing and then unpausing an unpaused
    contract restores every storage field but the log. *)
Theorem pause_can_always_be_lifted h c v s :
  msg_sender c = owner s ->
  outcome h (SetPaused v) c s = None
  /\ paused (after h (SetPaused v) c s) = v
  /\ events (after h (SetPaused v) c s)
     = events s ++ [if v then EmitPaused else EmitUnpaused]
  /\ (forall c2,
        msg_sender c2 = owner s ->
        paused s = false ->
        sameStorage (after h (SetPaused false) c2 (after h (SetPaused true) c s)) s).
Proof.
  intros Hown. apply owner_test_true in Hown.
  unfold outcome, after, transact. simpl dispatch. rewrite !setPaused_eq, Hown. simpl.
  repeat split.
  all: apply owner_test_true in H; rewrite setPaused_eq; simpl; rewrite H; simpl; done.
Qed.

Lemma pause_can_always_be_lifted_witness :
  outcome demoHost (SetPaused false) (mkCtx 10 130 0) pausedAfterSubmit = None
  /\ sameStorage
       (after demoHost (SetPaused false) (mkCtx 10 140 0)
          (after demoHost (SetPaused true) (mkCtx 10 130 0) afterSubmit))
       afterSubmit.
Proof.
  split.
  - apply (pause_can_always_be_lifted demoHost (mkCtx 10 130 0) false pausedAfterSubmit
             eq_refl).
  - apply (pause_can_always_be_lifted demoHost (mkCtx 10 130 0) true afterSubmit eq_refl);
      reflexivity.
Defined.



(** X9.  With the owner calling and the contract not paused, [closeBatch] on a
    closed batch reverts with [InvalidBatch]; on an open batch it closes it,
    keeps the id and logs [BatchClosed] with that id; a following [openBatch]
    reopens the same id with the submissions recorded for it still in place. *)
Theorem closeBatch_then_openBatch_keeps_id h c1 c2 s :
  msg_sender c1 = owner s ->
  msg_sender c2 = owner s ->
  paused s = false ->
  (batchOpen s = false -> dispatch h CloseBatch c1 s = Revert InvalidBatch s)
  /\ (batchOpen s = true ->
        outcome h CloseBatch c1 s = None
        /\ batchOpen (after h CloseBatch c1 s) = false
        /\ currentBatchId (after h CloseBatch c1 s) = currentBatchId s
        /\ events (after h CloseBatch c1 s) = events s ++ [BatchClosed (currentBatchId s)]
        /\ outcome h OpenBatch c2 (after h CloseBatch c1 s) = None
        /\ batchOpen (after h OpenBatch c2 (after h CloseBatch c1 s)) = true
        /\ currentBatchId (after h OpenBatch c2 (after h CloseBatch c1 s)) = currentBatchId s
        /\ hasSubmitted (after h OpenBatch c2 (after h CloseBatch c1 s)) = hasSubmitted s
        /\ encryptedNotes (after h OpenBatch c2 (after h CloseBatch c1 s))
           = encryptedNotes s).
Proof.
  intros H1 H2 Hp. apply owner_test_true in H1. apply owner_test_true in H2.
  unfold outcome, after, transact. simpl dispatch.
  rewrite closeBatch_eq, H1, Hp. simpl.
  split; intros Ho; rewrite Ho; simpl; [done |].
  rewrite openBatch_eq. simpl. rewrite H2, Hp. simpl. done.
Qed.

Lemma closeBatch_then_openBatch_keeps_id_witness :
  currentBatchId (after demoHost OpenBatch (mkCtx 10 140 0)
                    (after demoHost CloseBatch (mkCtx 10 130 0) afterSubmit))
  = currentBatchId afterSubmit
  /\ hasSubmitted (after demoHost OpenBatch (mkCtx 10 140 0)
                     (after demoHost CloseBatch (mkCtx 10 130 0) afterSubmit))
     = hasSubmitted afterSubmit.
Proof.
  pose proof (closeBatch_then_openBatch_keeps_id demoHost (mkCtx 10 130 0) (mkCtx 10 140 0)
                afterSubmit eq_refl eq_refl eq_refl) as [_ H].
  assert (Ho : batchOpen afterSubmit = true) by (vm_compute; reflexivity).
  destruct (H Ho) as (_ & _ & _ & _ & _ & _ & H7 & H8 & _).
  split; [exact H7 | exact H8].
Defined.

(** X10.  Only the owner changes the configuration and the batch state: a
    transaction after which the cooldown, the pause flag, the batch id or the
    open flag differs was sent by the owner to one of the [onlyOwner]
    functions. *)
Theorem configuration_changed_only_by_owner h call c s :
  (cooldownSeconds (after h call c s), paused (after h call c s),
   currentBatchId (after h call c s), batchOpen (after h call c s))
  <> (cooldownSeconds s, paused s, currentBatchId s, batchOpen s) ->
  msg_sender c = owner s /\ hasOnlyOwner call = true.
Proof.
  by_call call; repeat case_match; simplify_eq; simpl; intros Hch;
    try (exfalso; apply Hch; congruence).
  all: match goal with
       | H : negb (_ =? _) = false |- _ =>
           apply negb_false_iff, Z.eqb_eq in H
       end; done.
Qed.

Lemma configuration_changed_only_by_owner_witness :
  msg_sender (mkCtx 10 110 0) = owner afterSubmit /\ hasOnlyOwner (SetCooldown (mkUint256 5 eq_refl)) = true.
Proof.
  apply (configuration_changed_only_by_owner demoHost (SetCooldown (mkUint256 5 eq_refl))
           (mkCtx 10 110 0)
           afterSubmit).
  vm_compute. discriminate.
Defined.

(** X11.  A submission is only ever recorded by its own sender, for the
    current batch while it is open: a transaction that fills the slot of
    (batch, provider) is that provider's [submitPaymentRequest] for the current
    open batch, sent while the contract is not paused, the sender is a
    provider and its cooldown has elapsed; the slot then holds the submitted
    handle. *)
Theorem submission_recorded_only_by_sender h call c s b p :
  submitted s b p = false ->
  submitted (after h call c s) b p = true ->
  msg_sender c = p
  /\ isProvider s p = true
  /\ paused s = false
  /\ b = currentBatchId s
  /\ batchOpen s = true
  /\ lastSubmission s p + cooldownSeconds s <= block_timestamp c
  /\ exists v, call = SubmitPaymentRequest b v /\ noteOf (after h call c s) b p = v.
Proof.
  intros Hno.
  by_call call; repeat case_match; simplify_eq;
    unfold submitted, noteOf in *; simpl; try congruence.
  destruct (decide ((_batchId, msg_sender c) = (b, p))) as [E | E].
  - simplify_eq. intros _. rewrite lookup_insert_eq.
    repeat match goal with
           | H : negb _ = false |- _ => apply negb_false_iff in H
           end.
    repeat match goal with
           | H : (_ =? _) = true |- _ => apply Z.eqb_eq in H
           | H : (_ <? _) = false |- _ => apply Z.ltb_ge in H
           end.
    repeat split; try done; eauto.
  - rewrite lookup_insert_ne by done. congruence.
Qed.

Lemma submission_recorded_only_by_sender_witness :
  msg_sender (mkCtx 10 100 0) = 10
  /\ isProvider afterOpen 10 = true
  /\ paused afterOpen = false
  /\ 0 = currentBatchId afterOpen
  /\ batchOpen afterOpen = true
  /\ lastSubmission afterOpen 10 + cooldownSeconds afterOpen
     <= block_timestamp (mkCtx 10 100 0)
  /\ exists v, SubmitPaymentRequest 0 7 = SubmitPaymentRequest 0 v
               /\ noteOf (after demoHost (SubmitPaymentRequest 0 7) (mkCtx 10 100 0)
                            afterOpen) 0 10 = v.
Proof.
  apply (submission_recorded_only_by_sender demoHost (SubmitPaymentRequest 0 7)
           (mkCtx 10 100 0) afterOpen 0 10); vm_compute; reflexivity.
Defined.

Lemma deployed_wellFormed d : submissionsWellFormed (deployed d).
Proof.
  unfold submissionsWellFormed, submitted; simpl. split; [lia |]. split.
  - intros b p. rewrite lookup_empty. discriminate.
  - intros b p [x Hx]. rewrite lookup_empty in Hx. discriminate.
Qed.

Lemma after_wellFormed h call c s :
  submissionsWellFormed s -> submissionsWellFormed (after h call c s).
Proof.
  intros (H0 & Hle & Hnote).
  by_call call; repeat case_match; simplify_eq; simpl; try done.
  - unfold submissionsWellFormed, submitted in *; simpl.
    split; [lia |]. split; [| done].
    intros b p Hs. specialize (Hle b p Hs). lia.
  - unfold submissionsWellFormed, submitted in *; simpl.
    match goal with
    | H : negb (_ =? _) = false |- _ => apply negb_false_iff, Z.eqb_eq in H; subst
    end.
    split; [done |]. split.
    + intros b p.
      destruct (decide ((currentBatchId s, msg_sender c) = (b, p))) as [E | E].
      * simplify_eq. lia.
      * rewrite lookup_insert_ne by done. apply Hle.
    + intros b p.
      destruct (decide ((currentBatchId s, msg_sender c) = (b, p))) as [E | E].
      * simplify_eq. intros _. by rewrite lookup_insert_eq.
      * rewrite !lookup_insert_ne by done. apply Hnote.
Qed.

Lemma run_wellFormed h tr : forall s,
  submissionsWellFormed s -> submissionsWellFormed (run h tr s).
Proof.
  induction tr as [| [call c] tr IH]; intros s Hs; simpl; [done |].
  by apply IH, after_wellFormed.
Qed.

(** X12.  In every storage reachable from a deployment the batch id is not
    negative, submissions exist only for batch ids from 0 up to the current
    one, and a note is stored only where the submitted flag is set; hence the
    batch that [openBatch] moves to from an open batch starts with no
    submission at all. *)
Theorem reachable_submissions_wellFormed h s :
  reachable h s ->
  submissionsWellFormed s
  /\ (forall c p,
        outcome h OpenBatch c s = None ->
        batchOpen s = true ->
        submitted (after h OpenBatch c s) (currentBatchId (after h OpenBatch c s)) p
        = false).
Proof.
  intros (d & tr & ->).
  pose proof (run_wellFormed h tr _ (deployed_wellFormed d)) as Hwf.
  split; [done |].
  intros c p Hok Hopen. destruct Hwf as (H0 & Hle & _).
  revert Hok. unfold outcome, after, transact. simpl dispatch. rewrite openBatch_eq, Hopen.
  repeat case_match; simplify_eq; simpl; try done. intros _.
  destruct (submitted _ (currentBatchId _ + 1) p) eqn:E; [| done].
  unfold submitted in *; simpl in E. apply Hle in E. lia.
Qed.

Lemma reachable_submissions_wellFormed_witness :
  submissionsWellFormed afterSubmit
  /\ submitted (after demoHost OpenBatch (mkCtx 10 150 0) afterSubmit)
       (currentBatchId (after demoHost OpenBatch (mkCtx 10 150 0) afterSubmit)) 10
     = false.
Proof.
  assert (Hr : reachable demoHost afterSubmit)
    by (exists 10, (firstn 2 (historyOf 10)); reflexivity).
  split.
  - apply (proj1 (reachable_submissions_wellFormed demoHost afterSubmit Hr)).
  - apply (proj2 (reachable_submissions_wellFormed demoHost afterSubmit Hr));
      vm_compute; reflexivity.
Defined.

Lemma after_processed h call c s rid :
  processed (contextOf s rid) = true ->
  processed (contextOf (after h call c s) rid) = true
  \/ (exists b p, call = RequestNoteDecryption b p /\ oracle_requestId c = rid
                  /\ outcome h call c s = None).
Proof.
  intros Hp.
  by_call call; repeat case_match; simplify_eq; simpl; auto.
  - destruct (decide (oracle_requestId c = rid)) as [E | E].
    + right. eauto.
    + left. unfold contextOf in *; simpl. by rewrite lookup_insert_ne.
  - left. unfold contextOf in *; simpl.
    destruct (decide (requestId = rid)) as [-> | E].
    + by rewrite lookup_insert_eq.
    + by rewrite lookup_insert_ne.
Qed.

(** X13.  A finalized request stays finalized: after any transaction other
    than an accepted [requestNoteDecryption] to which the oracle gives the same
    request id again, [processed] is still set.  Along a history in which the
    oracle never reissues the id, the request stays finalized and every
    further callback for it is rejected with [ReplayDetected]. *)
Theorem processed_is_permanent h rid s :
  processed (contextOf s rid) = true ->
  (forall call c,
     processed (contextOf (after h call c s) rid) = true
     \/ (exists b p, call = RequestNoteDecryption b p /\ oracle_requestId c = rid
                     /\ outcome h call c s = None))
  /\ (forall tr,
        neverReissued rid tr ->
        processed (contextOf (run h tr s) rid) = true
        /\ forall c ct pf,
             outcome h (MyCallback rid ct pf) c (run h tr s) = Some ReplayDetected).
Proof.
  intros Hp. split; [intros; by apply after_processed |].
  intros tr Hfresh.
  assert (Hrun : processed (contextOf (run h tr s) rid) = true).
  { revert s Hp. induction tr as [| [call c] tr IH]; intros s Hp; simpl; [done |].
    inversion Hfresh as [| x l Hx Hrest]; subst. apply IH; [done |].
    destruct (after_processed h call c s rid Hp) as [H | (b & p & -> & Hid & _)];
      [done |].
    simpl in Hx. done. }
  split; [done |]. intros c ct pf.
  unfold outcome, transact. simpl dispatch. rewrite myCallback_eq. cbv zeta.
  by rewrite Hrun.
Qed.

Lemma processed_is_permanent_witness :
  processed (contextOf (run demoHost [(RequestNoteDecryption 0 10, mkCtx 20 400 2)]
                          afterCallback) 1) = true
  /\ forall c ct pf,
       outcome demoHost (MyCallback 1 ct pf) c
         (run demoHost [(RequestNoteDecryption 0 10, mkCtx 20 400 2)] afterCallback)
       = Some ReplayDetected.
Proof.
  assert (Hp : processed (contextOf afterCallback 1) = true) by (vm_compute; reflexivity).
  apply (proj2 (processed_is_permanent demoHost 1 afterCallback Hp)
           [(RequestNoteDecryption 0 10, mkCtx 20 400 2)]).
  repeat constructor. simpl. discriminate.
Defined.

(** The big-endian reading of a byte string. *)
Lemma bigEndian_snoc bs b :
  bigEndian (bs ++ [b]) = bigEndian bs * 256 + Z.of_N (Byte.to_N b).
Proof. unfold bigEndian. by rewrite fold_left_app. Qed.

Lemma byte_range b : 0 <= Z.of_N (Byte.to_N b) < 256.
Proof. pose proof (Byte.to_N_bounded b). lia. Qed.

Lemma bigEndian_range bs :
  0 <= bigEndian bs < 256 ^ Z.of_nat (length bs).
Proof.
  induction bs as [| b bs IH] using rev_ind; [change (0 <= 0 < 1); lia |].
  rewrite bigEndian_snoc, length_app, Nat2Z.inj_add. simpl length.
  rewrite Z.pow_add_r by lia. change (256 ^ Z.of_nat 1) with 256.
  pose proof (byte_range b). nia.
Qed.

Lemma bigEndian_word bs : length bs = 32%nat -> 0 <= bigEndian bs <= MAX_UINT256.
Proof.
  intros H. pose proof (bigEndian_range bs) as Hr. rewrite H in Hr.
  change (256 ^ Z.of_nat 32) with (2 ^ 256) in Hr. unfold MAX_UINT256. lia.
Qed.




(** X15.  An accepted callback had a 32-byte cleartext.  It appends two events:
    the library's [DecryptionFulfilled] for the request id, then
    [DecryptionCompleted] with the request id, the recorded batch id and the
    decoded number (a [uint256]).  It sets [processed] on that record, keeping
    its batch id and hash, and changes no other storage field. *)
Theorem accepted_callback_effect h c rid ct pf s :
  outcome h (MyCallback rid ct pf) c s = None ->
  length ct = 32%nat
  /\ abi_decode_uint256 ct = Some (bigEndian ct)
  /\ 0 <= bigEndian ct <= MAX_UINT256
  /\ events (after h (MyCallback rid ct pf) c s)
     = events s ++ [DecryptionFulfilled rid;
                    DecryptionCompleted rid (batchId (contextOf s rid)) (bigEndian ct)]
  /\ decryptionContexts (after h (MyCallback rid ct pf) c s)
     = <[rid := {| batchId := batchId (contextOf s rid);
                   stateHash := stateHash (contextOf s rid);
                   processed := true |}]> (decryptionContexts s)
  /\ owner (after h (MyCallback rid ct pf) c s) = owner s
  /\ providers (after h (MyCallback rid ct pf) c s) = providers s
  /\ paused (after h (MyCallback rid ct pf) c s) = paused s
  /\ cooldownSeconds (after h (MyCallback rid ct pf) c s) = cooldownSeconds s
  /\ lastSubmissionTime (after h (MyCallback rid ct pf) c s) = lastSubmissionTime s
  /\ lastDecryptionRequestTime (after h (MyCallback rid ct pf) c s)
     = lastDecryptionRequestTime s
  /\ currentBatchId (after h (MyCallback rid ct pf) c s) = currentBatchId s
  /\ batchOpen (after h (MyCallback rid ct pf) c s) = batchOpen s
  /\ encryptedNotes (after h (MyCallback rid ct pf) c s) = encryptedNotes s
  /\ hasSubmitted (after h (MyCallback rid ct pf) c s) = hasSubmitted s.
Proof.
  unfold outcome, after, transact. simpl dispatch. rewrite myCallback_eq. cbv zeta.
  repeat case_match; simplify_eq; simpl; try discriminate. intros _.
  assert (Hlen : length ct = 32%nat).
  { match goal with
    | H : negb (Z.of_nat (length ct) =? 32) = false |- _ =>
        apply negb_false_iff, Z.eqb_eq in H; lia
    end. }
  split; [done |]. split; [by apply abi_decode_uint256_word |].
  split; [by apply bigEndian_word |].
  split; [by rewrite <- app_assoc | done].
Qed.

Lemma accepted_callback_effect_witness :
  length word32 = 32%nat
  /\ abi_decode_uint256 word32 = Some (bigEndian word32)
  /\ 0 <= bigEndian word32 <= MAX_UINT256
  /\ events (after demoHost (MyCallback 1 word32 someProof) (mkCtx 10 300 0) afterRequest)
     = events afterRequest
       ++ [DecryptionFulfilled 1;
           DecryptionCompleted 1 (batchId (contextOf afterRequest 1)) (bigEndian word32)].
Proof.
  assert (H : outcome demoHost (MyCallback 1 word32 someProof) (mkCtx 10 300 0) afterRequest
              = None) by (vm_compute; reflexivity).
  destruct (accepted_callback_effect demoHost (mkCtx 10 300 0) 1 word32 someProof
              afterRequest H) as (H1 & H2 & H3 & H4 & _).
  split; [exact H1 | split; [exact H2 | split; [exact H3 | exact H4]]].
Defined.



Lemma after_events h call c s :
  (outcome h call c s = None
   /\ ((forall r ct pf, call <> MyCallback r ct pf)
        /\ (exists ev, events (after h call c s) = events s ++ [ev])
       \/ exists r ct pf b n,
            call = MyCallback r ct pf
            /\ events (after h call c s)
               = events s ++ [DecryptionFulfilled r; DecryptionCompleted r b n]))
  \/ ((exists e, outcome h call c s = Some e) /\ events (after h call c s) = events s).
Proof.
  by_call call; repeat case_match; simplify_eq; simpl; eauto.
  all: left; split; [done |].
  all: try (left; split; [discriminate | eauto]; fail).
  right. do 5 eexists. split; [reflexivity |]. by rewrite <- app_assoc.
Qed.

(** X17.  The event log per transaction: a rejected transaction appends
    nothing; an accepted call of any function but the callback appends exactly
    one event; an accepted callback appends exactly two, the library's
    [DecryptionFulfilled] and then [DecryptionCompleted].  Along a history the
    log only grows, by at most two events per transaction. *)
Theorem events_per_transaction h s :
  (forall call c e,
     outcome h call c s = Some e -> events (after h call c s) = events s)
  /\ (forall call c,
        outcome h call c s = None ->
        (forall r ct pf, call <> MyCallback r ct pf) ->
        exists ev, events (after h call c s) = events s ++ [ev])
  /\ (forall c r ct pf,
        outcome h (MyCallback r ct pf) c s = None ->
        exists b n,
          events (after h (MyCallback r ct pf) c s)
          = events s ++ [DecryptionFulfilled r; DecryptionCompleted r b n])
  /\ (forall tr,
        exists evs, events (run h tr s) = events s ++ evs
                    /\ (length evs <= 2 * length tr)%nat).
Proof.
  split; [| split; [| split]].
  - intros call c e He. by rewrite (after_revert h call c s e He).
  - intros call c Hok Hncb.
    destruct (after_events h call c s)
      as [[_ [[_ H] | (r & ct & pf & _ & _ & -> & _)]] | [[e He] _]];
      [done | by destruct (Hncb r ct pf) | congruence].
  - intros c r ct pf Hok.
    destruct (after_events h (MyCallback r ct pf) c s)
      as [[_ [[Hn _] | (r' & ct' & pf' & b & n & E & H)]] | [[e He] _]];
      [by destruct (Hn r ct pf) | simplify_eq; eauto | congruence].
  - intros tr. revert s. induction tr as [| [call c] tr IH]; intros s; simpl.
    + exists []. by rewrite app_nil_r.
    + destruct (IH (after h call c s)) as (evs & -> & Hlen).
      destruct (after_events h call c s)
        as [[_ [[_ [ev ->]] | (r & ct & pf & b & n & _ & ->)]] | [_ ->]].
      * exists (ev :: evs). rewrite <- app_assoc. simpl. split; [done | lia].
      * eexists (_ :: _ :: evs). rewrite <- app_assoc. simpl. split; [done | lia].
      * exists evs. split; [done | lia].
Qed.

Lemma events_per_transaction_witness :
  (exists ev, events (after demoHost CloseBatch (mkCtx 10 130 0) afterSubmit)
              = events afterSubmit ++ [ev])
  /\ (exists b n,
        events (after demoHost (MyCallback 1 word32 someProof) (mkCtx 10 300 0) afterRequest)
        = events afterRequest ++ [DecryptionFulfilled 1; DecryptionCompleted 1 b n])
  /\ events (after demoHost (MyCallback 1 word32 someProof) (mkCtx 30 300 0) afterRequest)
     = events afterRequest.
Proof.
  split; [| split].
  - apply (proj1 (proj2 (events_per_transaction demoHost afterSubmit))).
    + vm_compute. reflexivity.
    + discriminate.
  - apply (proj1 (proj2 (proj2 (events_per_transaction demoHost afterRequest)))).
    vm_compute. reflexivity.
  - apply (proj1 (events_per_transaction demoHost afterRequest)
             (MyCallback 1 word32 someProof) (mkCtx 30 300 0) InvalidState).
    vm_compute. reflexivity.
Defined.

(** X18.  The two throttle clocks are separate and per actor: the submission
    clock of an address moves only through that address's own accepted
    submission, the request clock only through its own accepted decryption
    request, and each time to the timestamp of that call. *)
Theorem throttle_clocks_are_separate h call c s a :
  (lastSubmission (after h call c s) a <> lastSubmission s a ->
     a = msg_sender c
     /\ lastSubmission (after h call c s) a = block_timestamp c
     /\ exists b v, call = SubmitPaymentRequest b v)
  /\ (lastDecryptionRequest (after h call c s) a <> lastDecryptionRequest s a ->
        a = msg_sender c
        /\ lastDecryptionRequest (after h call c s) a = block_timestamp c
        /\ exists b p, call = RequestNoteDecryption b p).
Proof.
  by_call call; repeat case_match; simplify_eq;
    unfold lastSubmission, lastDecryptionRequest; simpl;
    (split; [try done | try done]); intros Hch.
  - destruct (decide (msg_sender c = a)) as [<- | Hne].
    + rewrite lookup_insert_eq. eauto.
    + by rewrite lookup_insert_ne in Hch.
  - destruct (decide (msg_sender c = a)) as [<- | Hne].
    + rewrite lookup_insert_eq. eauto.
    + by rewrite lookup_insert_ne in Hch.
Qed.

Lemma throttle_clocks_are_separate_witness :
  10 = msg_sender (mkCtx 10 100 0)
  /\ lastSubmission (after demoHost (SubmitPaymentRequest 0 7) (mkCtx 10 100 0) afterOpen) 10
     = block_timestamp (mkCtx 10 100 0)
  /\ exists b v, SubmitPaymentRequest 0 7 = SubmitPaymentRequest b v.
Proof.
  apply (proj1 (throttle_clocks_are_separate demoHost (SubmitPaymentRequest 0 7)
                  (mkCtx 10 100 0) afterOpen 10)).
  vm_compute. discriminate.
Defined.

(** X19.  A callback for a request id that has no record is rejected, though
    not as a replay: unless the caller's slot in batch 0 hashes to zero, it
    fails with [DecryptionFailed] (cleartext not 32 bytes) or [InvalidState],
    and nothing is recorded for the id. *)
Theorem unknown_request_is_rejected h c rid ct pf s :
  decryptionContexts s !! rid = None ->
  _hashCiphertexts h [noteOf s 0 (msg_sender c)] <> 0 ->
  after h (MyCallback rid ct pf) c s = s
  /\ (outcome h (MyCallback rid ct pf) c s = Some DecryptionFailed
      \/ outcome h (MyCallback rid ct pf) c s = Some InvalidState).
Proof.
  intros Hnone Hhash.
  assert (outcome h (MyCallback rid ct pf) c s = Some DecryptionFailed
          \/ outcome h (MyCallback rid ct pf) c s = Some InvalidState) as Hout.
  { unfold outcome, transact. simpl dispatch. rewrite myCallback_eq. cbv zeta.
    unfold contextOf. rewrite Hnone. simpl.
    destruct (negb (Z.of_nat (length ct) =? 32)); simpl; [auto |].
    apply Z.eqb_neq in Hhash. rewrite Hhash. simpl. auto. }
  split; [| done].
  destruct Hout as [H | H]; by eapply after_revert.
Qed.

Lemma unknown_request_is_rejected_witness :
  after demoHost (MyCallback 5 word32 someProof) (mkCtx 10 300 0) afterRequest = afterRequest
  /\ (outcome demoHost (MyCallback 5 word32 someProof) (mkCtx 10 300 0) afterRequest
      = Some DecryptionFailed
      \/ outcome demoHost (MyCallback 5 word32 someProof) (mkCtx 10 300 0) afterRequest
         = Some InvalidState).
Proof.
  apply unknown_request_is_rejected; vm_compute; [reflexivity | discriminate].
Defined.

(** X20.  The ciphertext a decryption request was issued for can never change
    afterwards: an accepted request records the hash of the note stored for
    (batch, provider), and along every later history that slot keeps its note,
    so its hash stays equal to the one recorded at the time of the request. *)
Theorem requested_slot_never_changes h c b p s tr :
  outcome h (RequestNoteDecryption b p) c s = None ->
  stateHash (contextOf (after h (RequestNoteDecryption b p) c s) (oracle_requestId c))
  = _hashCiphertexts h [noteOf s b p]
  /\ noteOf (run h tr (after h (RequestNoteDecryption b p) c s)) b p = noteOf s b p
  /\ _hashCiphertexts h [noteOf (run h tr (after h (RequestNoteDecryption b p) c s)) b p]
     = stateHash (contextOf (after h (RequestNoteDecryption b p) c s) (oracle_requestId c)).
Proof.
  intros Hok.
  assert (Hsub : submitted s b p = true).
  { revert Hok. unfold outcome, transact. simpl dispatch.
    rewrite requestNoteDecryption_eq. cbv zeta.
    repeat case_match; simplify_eq; simpl; try discriminate.
    intros _. by destruct (submitted s b p). }
  assert (Hrec : stateHash (contextOf (after h (RequestNoteDecryption b p) c s)
                              (oracle_requestId c))
                 = _hashCiphertexts h [noteOf s b p]).
  { revert Hok. unfold outcome, after, transact. simpl dispatch.
    rewrite requestNoteDecryption_eq. cbv zeta.
    repeat case_match; simplify_eq; simpl; try discriminate.
    intros _. unfold contextOf; simpl. by rewrite lookup_insert_eq. }
  destruct (after_keeps_submission h (RequestNoteDecryption b p) c s b p Hsub) as [H1 H2].
  destruct (run_keeps_submission h tr _ b p H1) as [_ H3].
  split; [done |]. split; [congruence |]. rewrite Hrec. congruence.
Qed.

Lemma requested_slot_never_changes_witness :
  stateHash (contextOf (after demoHost (RequestNoteDecryption 0 10) (mkCtx 20 200 1)
                          afterSubmit) (oracle_requestId (mkCtx 20 200 1)))
  = _hashCiphertexts demoHost [noteOf afterSubmit 0 10]
  /\ noteOf (run demoHost midHistory
               (after demoHost (RequestNoteDecryption 0 10) (mkCtx 20 200 1) afterSubmit))
       0 10 = noteOf afterSubmit 0 10
  /\ _hashCiphertexts demoHost
       [noteOf (run demoHost midHistory
                  (after demoHost (RequestNoteDecryption 0 10) (mkCtx 20 200 1) afterSubmit))
          0 10]
     = stateHash (contextOf (after demoHost (RequestNoteDecryption 0 10) (mkCtx 20 200 1)
                               afterSubmit) (oracle_requestId (mkCtx 20 200 1))).
Proof.
  apply requested_slot_never_changes. vm_compute. reflexivity.
Defined.

Lemma accepted_request_state h c b p s :
  outcome h (RequestNoteDecryption b p) c s = None ->
  after h (RequestNoteDecryption b p) c s
  = log_event (DecryptionRequested (oracle_requestId c) b)
      (set_lastDecryptionRequestTime (msg_sender c) (block_timestamp c)
         (set_context (oracle_requestId c)
            {| batchId := b;
               stateHash := _hashCiphertexts h [noteOf s b p];
               processed := false |} s)).
Proof.
  unfold outcome, after, transact. simpl dispatch.
  rewrite requestNoteDecryption_eq. cbv zeta.
  repeat case_match; simplify_eq; simpl; try discriminate. done.
Qed.

(** X21.  From request to callback.  Right after an accepted request for
    (batch, provider), a callback with a 32-byte cleartext and a proof that
    verifies is accepted when it is sent by that provider, and finalizes the
    request; sent by a caller whose own slot in the batch hashes differently
    from the requested one, it is rejected with [InvalidState]. *)
Theorem callback_after_request h c c' b p ct pf s :
  outcome h (RequestNoteDecryption b p) c s = None ->
  length ct = 32%nat ->
  (msg_sender c' = p ->
   FHE_checkSignatures h (oracle_requestId c) ct pf = true ->
   outcome h (MyCallback (oracle_requestId c) ct pf) c'
     (after h (RequestNoteDecryption b p) c s) = None
   /\ processed
        (contextOf (after h (MyCallback (oracle_requestId c) ct pf) c'
                      (after h (RequestNoteDecryption b p) c s))
           (oracle_requestId c)) = true)
  /\ (_hashCiphertexts h [noteOf s b (msg_sender c')] <> _hashCiphertexts h [noteOf s b p] ->
      outcome h (MyCallback (oracle_requestId c) ct pf) c'
        (after h (RequestNoteDecryption b p) c s) = Some InvalidState).
Proof.
  intros Hok Hlen.
  rewrite (accepted_request_state h c b p s Hok).
  unfold outcome, after, transact. simpl dispatch.
  rewrite !myCallback_eq. cbv zeta.
  unfold contextOf, noteOf; simpl. rewrite !lookup_insert_eq. simpl.
  rewrite Hlen. simpl. split.
  - intros -> Hsig. rewrite Z.eqb_refl, Hsig. simpl.
    by rewrite lookup_insert_eq.
  - intros Hne. apply Z.eqb_neq in Hne. unfold noteOf in Hne. by rewrite Hne.
Qed.

Lemma callback_after_request_witness :
  (outcome demoHost (MyCallback (oracle_requestId (mkCtx 20 200 1)) word32 someProof)
     (mkCtx 10 300 0)
     (after demoHost (RequestNoteDecryption 0 10) (mkCtx 20 200 1) afterSubmit) = None
   /\ processed
        (contextOf
           (after demoHost (MyCallback (oracle_requestId (mkCtx 20 200 1)) word32 someProof)
              (mkCtx 10 300 0)
              (after demoHost (RequestNoteDecryption 0 10) (mkCtx 20 200 1) afterSubmit))
           (oracle_requestId (mkCtx 20 200 1))) = true)
  /\ outcome demoHost (MyCallback (oracle_requestId (mkCtx 20 200 1)) word32 someProof)
       (mkCtx 30 300 0)
       (after demoHost (RequestNoteDecryption 0 10) (mkCtx 20 200 1) afterSubmit)
     = Some InvalidState.
Proof.
  assert (Hok : outcome demoHost (RequestNoteDecryption 0 10) (mkCtx 20 200 1) afterSubmit
                = None) by (vm_compute; reflexivity).
  split.
  - apply (proj1 (callback_after_request demoHost (mkCtx 20 200 1) (mkCtx 10 300 0) 0 10
                    word32 someProof afterSubmit Hok eq_refl)); reflexivity.
  - apply (proj2 (callback_after_request demoHost (mkCtx 20 200 1) (mkCtx 30 300 0) 0 10
                    word32 someProof afterSubmit Hok eq_refl)).
    vm_compute. discriminate.
Defined.
